(** * api_gen.py: the registration bot, embedded and verified

    The bot of [api_gen.py] walks every conversation through three steps
    (name, email, chat), validates the address with a regular expression,
    draws a UUID4 token, stores one row per user in the SQLite table
    [users] and appends later messages to that row's history.

    The embedding follows the source function by function: Python
    strings are sequences of code points, [context.user_data] is a finite
    map, the database file is a list of rows with its two UNIQUE
    constraints, and the handlers run in a small state-and-exception
    monad whose state is the part of the world the handlers touch. *)

From Stdlib Require Import NArith List Ascii String Bool Lia.
From stdpp Require Import base option list gmap strings.
Import ListNotations.

Local Open Scope N_scope.

(* ===================================================================== *)
(** ** Python strings *)
(* ===================================================================== *)

(** A Python [str] is a sequence of Unicode code points, here [list N].
    The transport delivers well-formed text, which [sqlite3] stores and
    returns unchanged and compares code point by code point. *)

(** Source literals are written in this file as UTF-8 text; [py] turns
    such a literal into the code points Python reads from it. *)
Fixpoint utf8_decode (bs : list N) : list N :=
  match bs with
  | [] => []
  | b0 :: r0 =>
    if b0 <? 0x80 then b0 :: utf8_decode r0
    else match r0 with
    | [] => []
    | b1 :: r1 =>
      if b0 <? 0xE0
      then N.lor (N.shiftl (N.land b0 0x1F) 6) (N.land b1 0x3F) :: utf8_decode r1
      else match r1 with
      | [] => []
      | b2 :: r2 =>
        if b0 <? 0xF0
        then N.lor (N.shiftl (N.land b0 0x0F) 12)
               (N.lor (N.shiftl (N.land b1 0x3F) 6) (N.land b2 0x3F))
               :: utf8_decode r2
        else match r2 with
        | [] => []
        | b3 :: r3 =>
          N.lor (N.shiftl (N.land b0 0x07) 18)
            (N.lor (N.shiftl (N.land b1 0x3F) 12)
               (N.lor (N.shiftl (N.land b2 0x3F) 6) (N.land b3 0x3F)))
            :: utf8_decode r3
        end
      end
    end
  end.

Fixpoint bytes_of_string (s : string) : list N :=
  match s with
  | EmptyString => []
  | String a s' => N_of_ascii a :: bytes_of_string s'
  end.

Definition py (s : string) : list N := utf8_decode (bytes_of_string s).

(** The characters the source names one at a time. *)
Definition NEWLINE : N := 10.
Definition QUOTE : N := 34.
Definition HYPHEN : N := 45.
Definition DOT : N := 46.
Definition AT : N := 64.
Definition UNDERSCORE : N := 95.

(* ===================================================================== *)
(** ** The fragment of [re] that [is_valid_email] uses *)
(* ===================================================================== *)

(** What matches one character: a literal, the class [\w], or a bracket
    expression, read as the union of its members. *)
Inductive charset : Type :=
  | Lit (c : N)
  | Word
  | Union (a b : charset).

(** One element of a pattern: a single character, a greedy repetition
    [+] of a single character, or one of the two anchors. *)
Inductive item : Type :=
  | One (cs : charset)
  | Plus (cs : charset)
  | Caret
  | Dollar.

(** [str.isalnum] on the ASCII block. *)
Definition ascii_alnum (c : N) : bool :=
  ((48 <=? c) && (c <=? 57)) || ((65 <=? c) && (c <=? 90)) || ((97 <=? c) && (c <=? 122)).

(** Without [re.MULTILINE], [$] matches at the end of the string and
    also just before a newline that is the last character. *)
Definition at_dollar (s : list N) : bool :=
  match s with
  | [] => true
  | [c] => c =? NEWLINE
  | _ => false
  end.

Section Regex.

(** The interpreter's Unicode database decides which code points
    outside ASCII are alphanumeric ([Py_UNICODE_ISALNUM]); it is no
    part of the repository and every result below holds for any such
    table. *)
Variable unicode_alnum : N -> bool.

Definition isalnum (c : N) : bool :=
  if c <? 128 then ascii_alnum c else unicode_alnum c.

(** [\w] on a [str] pattern: alphanumeric or the underscore. *)
Definition is_word (c : N) : bool := isalnum c || (c =? UNDERSCORE).

Fixpoint in_charset (cs : charset) (c : N) : bool :=
  match cs with
  | Lit d => c =? d
  | Word => is_word c
  | Union a b => in_charset a c || in_charset b c
  end.

(** [cs+] followed by the rest of the pattern [k]: at least one
    character of [cs], then the longer repetition is tried before the
    rest of the pattern (greedy, with backtracking). *)
Fixpoint match_plus (cs : charset) (k : list N -> bool) (s : list N) : bool :=
  match s with
  | [] => false
  | c :: s' => in_charset cs c && (match_plus cs k s' || k s')
  end.

(** [match_here p bos s]: the pattern [p] matches a prefix of [s];
    [bos] says whether [s] starts at the beginning of the subject. *)
Fixpoint match_here (p : list item) : bool -> list N -> bool :=
  match p with
  | [] => fun _ _ => true
  | One cs :: p' => fun _ s =>
      match s with
      | [] => false
      | c :: s' => in_charset cs c && match_here p' false s'
      end
  | Plus cs :: p' => fun _ s => match_plus cs (match_here p' false) s
  | Caret :: p' => fun bos s => bos && match_here p' bos s
  | Dollar :: p' => fun bos s => at_dollar s && match_here p' bos s
  end.

(** [re.match(p, s) is not None]: a match anchored at index 0. *)
Definition re_match (p : list item) (s : list N) : bool := match_here p true s.

(** [r'^[\w\.-]+@[\w\.-]+\.\w+$'] *)
Definition name_chars : charset := Union Word (Union (Lit DOT) (Lit HYPHEN)).

Definition EMAIL_RE : list item :=
  [Caret; Plus name_chars; One (Lit AT); Plus name_chars; One (Lit DOT); Plus Word; Dollar].

Definition is_valid_email (email : list N) : bool := re_match EMAIL_RE email.

(** The grammar in the specification's words: one or more of word
    characters, dot and hyphen; [@]; one or more of the same; a dot;
    one or more word characters; and nothing else. *)
Definition email_grammar (e : list N) : Prop :=
  exists l d t : list N,
    e = l ++ AT :: d ++ DOT :: t /\
    l <> [] /\ forallb (in_charset name_chars) l = true /\
    d <> [] /\ forallb (in_charset name_chars) d = true /\
    t <> [] /\ forallb is_word t = true.

End Regex.

(* ===================================================================== *)
(** ** [generate_api_token]: [str(uuid.uuid4())] *)
(* ===================================================================== *)

(** [int.from_bytes(bytes, 'big')] *)
Definition from_bytes (bs : list N) : N :=
  fold_left (fun acc b => acc * 256 + b) bs 0.

(** [UUID(bytes=..., version=4)]: the variant bits are forced to RFC 4122
    and the version nibble to 4. *)
Definition UUID_v4 (bytes : list N) : N :=
  let int := from_bytes bytes in
  let int := N.ldiff int (N.shiftl 0xc000 48) in
  let int := N.lor int (N.shiftl 0x8000 48) in
  let int := N.ldiff int (N.shiftl 0xf000 64) in
  N.lor int (N.shiftl 4 76).

Definition hex_digit (d : N) : N := if d <? 10 then 48 + d else 87 + d.

(** ['%0<width>x' % n], for [n] below [16 ^ width]. *)
Fixpoint hex_fixed (width : nat) (n : N) : list N :=
  match width with
  | O => []
  | S w => hex_fixed w (n / 16) ++ [hex_digit (n mod 16)]
  end.

(** [UUID.__str__]: the 32 hex digits in groups of 8-4-4-4-12. *)
Definition UUID_str (int : N) : list N :=
  let hex := hex_fixed 32 int in
  take 8 hex ++ HYPHEN :: take 4 (drop 8 hex) ++ HYPHEN :: take 4 (drop 12 hex)
    ++ HYPHEN :: take 4 (drop 16 hex) ++ HYPHEN :: drop 20 hex.

(** The sixteen bytes [os.urandom(16)] returns are the function's only
    input; they are passed in explicitly. *)
Definition generate_api_token (urandom : list N) : list N :=
  UUID_str (UUID_v4 urandom).

(* ===================================================================== *)
(** ** The table [users] of [telegram_users.db] *)
(* ===================================================================== *)

Module users.

(** One row. The program writes a string into every column, so the
    nullable columns are modelled by the strings they hold. *)
Record row : Type := Row {
  id : N;
  email : list N;
  api_token : list N;
  name : list N;
  conversation_history : list N
}.

End users.

(** The database file: the rows of [users] in rowid order, and the
    counter that AUTOINCREMENT keeps in [sqlite_sequence]. *)
Record database : Type := Database {
  users_rows : list users.row;
  sqlite_sequence : N
}.

(** [create_db()]: [CREATE TABLE IF NOT EXISTS users (...)]. A file
    that was not there ([None]) gets the empty table; an existing one is
    left as it is. *)
Definition create_db (file : option database) : database :=
  match file with
  | Some db => db
  | None => {| users_rows := []; sqlite_sequence := 0 |}
  end.

(** The exception the handlers deal with. The failures of a store that
    cannot be reached or written ([sqlite3.OperationalError]) are left
    out: every statement below is about calls whose statements get
    through to the table. *)
Inductive exn : Type :=
  | IntegrityError.

Definition max_rowid (rows : list users.row) : N :=
  fold_right (fun r m => N.max (users.id r) m) 0 rows.

(** [INSERT INTO users (email, api_token, name, conversation_history)
    VALUES (?, ?, ?, ?)]: refused when either UNIQUE column already
    holds the value; otherwise the row is appended under the next
    rowid. The rowid is computed without SQLite's ceiling of 2^63 - 1,
    at which the real insert is refused; what is said about rowids
    below is said under that ceiling. *)
Definition INSERT_INTO_users (db : database) (email api_token name history : list N)
  : exn + database :=
  if existsb (fun r => bool_decide (users.email r = email)) (users_rows db)
     || existsb (fun r => bool_decide (users.api_token r = api_token)) (users_rows db)
  then inl IntegrityError
  else
    let rowid := N.max (sqlite_sequence db) (max_rowid (users_rows db)) + 1 in
    inr {| users_rows := users_rows db ++ [users.Row rowid email api_token name history];
           sqlite_sequence := rowid |}.

(** A Python [None] bound to [?] is SQL [NULL], and [email = NULL] holds
    for no row. *)
Definition where_email (param : option (list N)) (r : users.row) : bool :=
  match param with
  | Some e => bool_decide (users.email r = e)
  | None => false
  end.

(** [SELECT conversation_history FROM users WHERE email = ?] followed by
    [fetchone()]. *)
Definition SELECT_conversation_history (db : database) (param : option (list N))
  : option (list N) :=
  users.conversation_history <$> find (where_email param) (users_rows db).

(** [UPDATE users SET conversation_history = ? WHERE email = ?] *)
Definition UPDATE_conversation_history (db : database) (new_history : list N)
    (param : option (list N)) : database :=
  {| users_rows :=
       map (fun r =>
              if where_email param r
              then users.Row (users.id r) (users.email r) (users.api_token r)
                     (users.name r) new_history
              else r)
           (users_rows db);
     sqlite_sequence := sqlite_sequence db |}.

(** The values held by the two UNIQUE columns. *)
Definition emails (db : database) : list (list N) := map users.email (users_rows db).
Definition tokens (db : database) : list (list N) := map users.api_token (users_rows db).

(** The schema's invariant: no value occurs twice in a UNIQUE column. *)
Definition unique_columns (db : database) : Prop :=
  NoDup (emails db) /\ NoDup (tokens db).

(* ===================================================================== *)
(** ** The handlers' monad *)
(* ===================================================================== *)

(** What a handler can read and change: the conversation's
    [context.user_data], the database file, and the replies sent so far
    (oldest first). *)
Record world : Type := World {
  user_data : gmap string (list N);
  telegram_users_db : database;
  sent : list (list N)
}.

Inductive outcome (A : Type) : Type :=
  | Return (a : A)
  | Raise (e : exn).
Arguments Return {A} a.
Arguments Raise {A} e.

Definition M (A : Type) : Type := world -> outcome A * world.

Definition ret {A} (a : A) : M A := fun w => (Return a, w).

Definition bind {A B} (m : M A) (k : A -> M B) : M B :=
  fun w =>
    match m w with
    | (Return a, w') => k a w'
    | (Raise e, w') => (Raise e, w')
    end.

Definition raise {A} (e : exn) : M A := fun w => (Raise e, w).

(** [try: body  except IntegrityError: handler]; what the body did
    before it raised stays done. *)
Definition try_except {A} (body : M A) (handler : M A) : M A :=
  fun w =>
    match body w with
    | (Raise IntegrityError, w') => handler w'
    | r => r
    end.

Declare Scope py_scope.
Delimit Scope py_scope with py.
Notation "x <- m ;; k" := (bind m (fun x => k))
  (at level 100, m at next level, right associativity) : py_scope.
Notation "m ;; k" := (bind m (fun _ => k))
  (at level 100, right associativity) : py_scope.
Local Open Scope py_scope.

(** [context.user_data.get(key, default)] *)
Definition user_data_get (key : string) (dflt : list N) : M (list N) :=
  fun w => (Return (default dflt (user_data w !! key)), w).

(** [context.user_data.get(key)] *)
Definition user_data_get_opt (key : string) : M (option (list N)) :=
  fun w => (Return (user_data w !! key), w).

(** [context.user_data[key] = value] *)
Definition user_data_set (key : string) (value : list N) : M unit :=
  fun w => (Return tt,
            {| user_data := <[key := value]> (user_data w);
               telegram_users_db := telegram_users_db w;
               sent := sent w |}).

(** [await update.message.reply_text(text)] *)
Definition reply_text (text : list N) : M unit :=
  fun w => (Return tt,
            {| user_data := user_data w;
               telegram_users_db := telegram_users_db w;
               sent := sent w ++ [text] |}).

(** A connection works on its own copy of the file's contents; only
    [commit] writes the copy back. *)
Definition sqlite3_connect : M database :=
  fun w => (Return (telegram_users_db w), w).

Definition commit (conn : database) : M unit :=
  fun w => (Return tt,
            {| user_data := user_data w;
               telegram_users_db := conn;
               sent := sent w |}).

Definition close (conn : database) : M unit := ret tt.

(** [cursor.execute(...)] for each of the three statements; the
    connection's copy after the statement is returned. *)
Definition execute_INSERT (conn : database) (email api_token name history : list N)
  : M database :=
  match INSERT_INTO_users conn email api_token name history with
  | inl e => raise e
  | inr conn' => ret conn'
  end.

Definition execute_SELECT_fetchone (conn : database) (param : option (list N))
  : M (option (list N)) :=
  ret (SELECT_conversation_history conn param).

Definition execute_UPDATE (conn : database) (new_history : list N)
    (param : option (list N)) : M database :=
  ret (UPDATE_conversation_history conn new_history param).

(* ===================================================================== *)
(** ** The two handlers *)
(* ===================================================================== *)

Definition NAME_PROMPT : list N := py "Привіт! Будь ласка, введіть ваше ім'я.".
Definition EMAIL_PROMPT (name : list N) : list N :=
  py "Дякую, " ++ name ++ py "! Тепер, будь ласка, введіть вашу електронну пошту.".
Definition TOKEN_REPLY (api_token : list N) : list N :=
  py "Ваш API токен: " ++ api_token.
Definition DUPLICATE_REPLY : list N := py "Ця пошта вже зареєстрована. Використайте іншу.".
Definition INVALID_REPLY : list N := py "Невірний формат пошти. Будь ласка, спробуйте ще раз.".
Definition SAVED_REPLY : list N := py "Повідомлення збережено.".

(** The new value of the history column: [f'{history}, "{message}"' if
    history else f'"{message}"']. *)
Definition new_history (history message : list N) : list N :=
  match history with
  | _ :: _ => history ++ py ", " ++ QUOTE :: message ++ [QUOTE]
  | [] => QUOTE :: message ++ [QUOTE]
  end.

(** [context.user_data.get('step', 'name')], the step a handler finds. *)
Definition step_of (w : world) : list N := default (py "name") (user_data w !! "step").

(** [start(update, context)], the handler of the command [/start]. *)
Definition start : M unit :=
  reply_text NAME_PROMPT ;;
  user_data_set "step" (py "name").

(** Concrete data for the worked instances at the end of the file: a
    Unicode table with nothing alphanumeric outside ASCII, sixteen bytes
    of entropy, a stored user, and conversations at each step. *)
Definition ascii_table : N -> bool := fun _ => false.

Definition sample_urandom : list N := [1; 2; 3; 4; 5; 6; 7; 8; 9; 10; 11; 12; 13; 14; 15; 16].

Definition alice : users.row :=
  users.Row 1 (py "alice@example.org") (py "ffffffff-ffff-4fff-bfff-ffffffffffff")
    (py "Alice") [].

Definition alice_db : database := {| users_rows := [alice]; sqlite_sequence := 1 |}.

(** A user whose token is the one [sample_urandom] leads to. *)
Definition carol : users.row :=
  users.Row 1 (py "carol@example.org") (generate_api_token sample_urandom) (py "Carol") [].

Definition carol_db : database := {| users_rows := [carol]; sqlite_sequence := 1 |}.

Definition at_email (db : database) : world :=
  {| user_data := <["step" := py "email"]> (<["name" := py "Bob"]> ∅);
     telegram_users_db := db;
     sent := [] |}.

Definition at_chat (email : list N) (db : database) : world :=
  {| user_data := <["email" := email]> (<["step" := py "chat"]> (<["name" := py "Bob"]> ∅));
     telegram_users_db := db;
     sent := [] |}.

(** Two strings given by literals differ: evaluate both sides. *)
Ltac py_differ := let H := fresh in intros H; vm_compute in H; discriminate H.

(** A decidable statement about concrete data: evaluate its decision. *)
Ltac by_evaluation := apply (bool_decide_unpack _); vm_compute; exact I.

Section Bot.

(** The Unicode table of [Section Regex]. *)
Variable unicode_alnum : N -> bool.

(** [handle_message(update, context)], the handler of every text that is
    no command. [text] is [update.message.text]; [urandom] is what
    [os.urandom] would return if the handler came to draw a token. *)
Definition handle_message (urandom : list N) (text : list N) : M unit :=
  step <- user_data_get "step" (py "name") ;;
  if bool_decide (step = py "name") then
    let name := text in
    user_data_set "name" name ;;
    reply_text (EMAIL_PROMPT name) ;;
    user_data_set "step" (py "email")
  else if bool_decide (step = py "email") then
    let email := text in
    if is_valid_email unicode_alnum email then
      let api_token := generate_api_token urandom in
      name <- user_data_get "name" (py "Невідомий") ;;
      try_except
        (conn <- sqlite3_connect ;;
         conn <- execute_INSERT conn email api_token name [] ;;
         commit conn ;;
         close conn ;;
         reply_text (TOKEN_REPLY api_token) ;;
         user_data_set "step" (py "chat") ;;
         user_data_set "email" email)
        (reply_text DUPLICATE_REPLY)
    else
      reply_text INVALID_REPLY
  else if bool_decide (step = py "chat") then
    let message := text in
    email <- user_data_get_opt "email" ;;
    conn <- sqlite3_connect ;;
    result <- execute_SELECT_fetchone conn email ;;
    conn <- (match result with
             | Some history =>
                 conn <- execute_UPDATE conn (new_history history message) email ;;
                 commit conn ;;
                 ret conn
             | None => ret conn
             end) ;;
    close conn ;;
    reply_text SAVED_REPLY
  else ret tt.

(** The dispatcher delivers a conversation's texts one at a time, oldest
    first; each update is paired with the entropy its handler would
    draw. *)
Fixpoint handle_messages (updates : list (list N * list N)) (w : world) : world :=
  match updates with
  | [] => w
  | (urandom, text) :: rest =>
      handle_messages rest (snd (handle_message urandom text w))
  end.

(** What [main] wires up: [CommandHandler("start", start)] takes the
    command [/start], [MessageHandler(filters.TEXT & ~filters.COMMAND,
    handle_message)] takes every text that is no command, and any other
    update reaches no handler. *)
Inductive update : Type :=
  | CommandStart
  | TextMessage (urandom text : list N)
  | Unhandled.

Definition dispatch (u : update) : M unit :=
  match u with
  | CommandStart => start
  | TextMessage urandom text => handle_message urandom text
  | Unhandled => ret tt
  end.

(** [application.run_polling()] over the updates of one conversation,
    oldest first. *)
Fixpoint run_polling (updates : list update) (w : world) : world :=
  match updates with
  | [] => w
  | u :: rest => run_polling rest (snd (dispatch u w))
  end.

(** A conversation the process has not seen yet: no user data, no reply
    sent. *)
Definition fresh_conversation (db : database) : world :=
  {| user_data := ∅; telegram_users_db := db; sent := [] |}.

(** Vocabulary for the statements below. [same_user r r'] says that
    [r'] is the row [r] with a history that extends the old one. *)
Definition same_user (r r' : users.row) : Prop :=
  users.id r' = users.id r /\
  users.email r' = users.email r /\
  users.api_token r' = users.api_token r /\
  users.name r' = users.name r /\
  users.conversation_history r `prefix_of` users.conversation_history r'.

Definition rowids (db : database) : list N := map users.id (users_rows db).

(** The largest rowid SQLite can give, 2^63 - 1. *)
Definition MAX_ROWID : N := 9223372036854775807.

(** The places of the four hyphens in the printed UUID. *)
Definition is_hyphen_position (i : nat) : bool :=
  Nat.eqb i 8 || Nat.eqb i 13 || Nat.eqb i 18 || Nat.eqb i 23.

(** A lowercase hexadecimal digit. *)
Definition is_hex_char (c : N) : bool :=
  ((48 <=? c) && (c <=? 57)) || ((97 <=? c) && (c <=? 102)).

(** The characters an accepted address can hold. *)
Definition address_char (unicode_alnum : N -> bool) (c : N) : bool :=
  in_charset unicode_alnum name_chars c || (c =? AT) || (c =? NEWLINE).

(** [extends db db']: every row of [db] is still there in [db'], in the
    same place and for the same user, and rows may have been added
    after them. *)
Definition extends (db db' : database) : Prop :=
  exists kept added : list users.row,
    users_rows db' = kept ++ added /\ Forall2 same_user (users_rows db) kept.

(** The staged data fit the step: a name is staged from step [email]
    on, and in step [chat] the staged address has a row. *)
Definition well_staged (w : world) : Prop :=
  step_of w = py "name" \/
  (step_of w = py "email" /\ is_Some (user_data w !! "name")) \/
  (step_of w = py "chat" /\ is_Some (user_data w !! "name") /\
   exists e, user_data w !! "email" = Some e /\ e ∈ emails (telegram_users_db w)).

(** The three values of ['step'] that [handle_message] knows. *)
Definition known_steps : list (list N) := [py "name"; py "email"; py "chat"].

(* ===================================================================== *)
(** ** The validator and the grammar *)
(* ===================================================================== *)

Lemma at_dollar_spec (s : list N) :
  at_dollar s = true <-> s = [] \/ s = [NEWLINE].
Proof.
  destruct s as [|c [|c' s']]; simpl.
  - split; auto.
  - rewrite N.eqb_eq. split.
    + intros ->. now right.
    + intros [H|H]; [discriminate | now injection H].
  - split; [discriminate | intros [H|H]; discriminate].
Qed.

(** The repetition [cs+] splits the subject into a non-empty run of
    [cs] and a rest that the continuation accepts. *)
Lemma match_plus_spec (cs : charset) (k : list N -> bool) (s : list N) :
  match_plus unicode_alnum cs k s = true <->
  exists a b, s = a ++ b /\ a <> [] /\
    forallb (in_charset unicode_alnum cs) a = true /\ k b = true.
Proof.
  induction s as [|c s IH]; simpl.
  - split; [discriminate |].
    intros (a & b & Hs & Ha & _). destruct a; [congruence | discriminate].
  - rewrite andb_true_iff, orb_true_iff, IH. split.
    + intros [Hc [(a & b & -> & Ha & Hall & Hk) | Hk]].
      * exists (c :: a), b. simpl. rewrite Hc, Hall. repeat split; auto; discriminate.
      * exists [c], s. simpl. rewrite Hc. repeat split; auto; discriminate.
    + intros (a & b & Hs & Ha & Hall & Hk).
      destruct a as [|c0 a]; [congruence |].
      simpl in Hs, Hall. injection Hs as -> ->.
      apply andb_true_iff in Hall as [Hc Hall]. split; [exact Hc |].
      destruct a as [|c1 a]; [right; exact Hk |].
      left. exists (c1 :: a), b. repeat split; auto; discriminate.
Qed.

(** What [is_valid_email] accepts: the strings of the grammar, and the
    same strings followed by one newline. *)
Lemma is_valid_email_spec (e : list N) :
  is_valid_email unicode_alnum e = true <->
  email_grammar unicode_alnum e \/
  exists e0, e = e0 ++ [NEWLINE] /\ email_grammar unicode_alnum e0.
Proof.
  unfold is_valid_email, re_match, EMAIL_RE, email_grammar.
  cbn [match_here andb]. rewrite match_plus_spec. split.
  - intros (l & b & -> & Hl & Hall & Hk).
    destruct b as [|c b]; [discriminate |].
    apply andb_true_iff in Hk as [Hc Hk]. cbn [in_charset] in Hc.
    apply N.eqb_eq in Hc as ->.
    apply match_plus_spec in Hk as (d & b' & -> & Hd & Halld & Hk).
    destruct b' as [|c b']; [discriminate |].
    apply andb_true_iff in Hk as [Hc Hk]. cbn [in_charset] in Hc.
    apply N.eqb_eq in Hc as ->.
    apply match_plus_spec in Hk as (t & r & -> & Ht & Hallt & Hk).
    rewrite andb_true_r in Hk. apply at_dollar_spec in Hk as [-> | ->].
    + left. exists l, d, t. rewrite app_nil_r. repeat split; auto.
    + right. exists (l ++ AT :: d ++ DOT :: t). split.
      * now rewrite <- !app_assoc, <- !app_comm_cons, <- app_assoc.
      * exists l, d, t. repeat split; auto.
  - intros [(l & d & t & -> & Hl & Hall & Hd & Halld & Ht & Hallt)
           | (e0 & -> & l & d & t & -> & Hl & Hall & Hd & Halld & Ht & Hallt)].
    + exists l, (AT :: d ++ DOT :: t). repeat split; auto.
      cbn [in_charset]. rewrite N.eqb_refl. cbn [andb].
      apply match_plus_spec. exists d, (DOT :: t). repeat split; auto.
      cbn [in_charset]. rewrite N.eqb_refl. cbn [andb].
      apply match_plus_spec. exists t, []. rewrite app_nil_r. repeat split; auto.
    + exists l, (AT :: d ++ DOT :: t ++ [NEWLINE]). repeat split; auto.
      * now rewrite <- !app_assoc, <- !app_comm_cons, <- app_assoc.
      * cbn [in_charset]. rewrite N.eqb_refl. cbn [andb].
        apply match_plus_spec. exists d, (DOT :: t ++ [NEWLINE]). repeat split; auto.
        cbn [in_charset]. rewrite N.eqb_refl. cbn [andb].
        apply match_plus_spec. exists t, [NEWLINE]. repeat split; auto.
Qed.

Lemma grammar_is_valid (e : list N) :
  email_grammar unicode_alnum e -> is_valid_email unicode_alnum e = true.
Proof. intros H. apply is_valid_email_spec. now left. Qed.

(** A string of the grammar ends in a word character. *)
Lemma email_grammar_last (e : list N) :
  email_grammar unicode_alnum e ->
  exists e' c, e = e' ++ [c] /\ is_word unicode_alnum c = true.
Proof.
  intros (l & d & t & -> & _ & _ & _ & _ & Ht & Hallt).
  destruct (exists_last Ht) as (t' & c & ->).
  exists (l ++ AT :: d ++ DOT :: t'), c. split.
  - now rewrite <- !app_assoc, <- !app_comm_cons, <- app_assoc.
  - rewrite forallb_app in Hallt. apply andb_true_iff in Hallt as [_ Hc].
    simpl in Hc. now rewrite andb_true_r in Hc.
Qed.

Lemma newline_not_word : is_word unicode_alnum NEWLINE = false.
Proof. reflexivity. Qed.

(** So no string of the grammar ends in a newline. *)
Lemma email_grammar_no_trailing_newline (e0 : list N) :
  ~ email_grammar unicode_alnum (e0 ++ [NEWLINE]).
Proof.
  intros H. apply email_grammar_last in H as (e' & c & Heq & Hc).
  apply app_inj_tail in Heq as [_ <-].
  rewrite newline_not_word in Hc. discriminate.
Qed.

(* ===================================================================== *)
(** ** The store *)
(* ===================================================================== *)

Lemma existsb_email_false (db : database) (e : list N) :
  e ∉ emails db ->
  existsb (fun r => bool_decide (users.email r = e)) (users_rows db) = false.
Proof.
  unfold emails. induction (users_rows db) as [|r rows IH]; simpl; [reflexivity |].
  intros Hn. apply not_elem_of_cons in Hn as [Hne Hn].
  rewrite (IH Hn), orb_false_r. apply bool_decide_eq_false_2. congruence.
Qed.

Lemma existsb_email_true (db : database) (e : list N) :
  e ∈ emails db ->
  existsb (fun r => bool_decide (users.email r = e)) (users_rows db) = true.
Proof.
  unfold emails. induction (users_rows db) as [|r rows IH]; simpl.
  - intros H. inversion H.
  - intros H. apply elem_of_cons in H as [-> | H].
    + now rewrite bool_decide_eq_true_2.
    + rewrite (IH H). apply orb_true_r.
Qed.

Lemma existsb_token_false (db : database) (t : list N) :
  t ∉ tokens db ->
  existsb (fun r => bool_decide (users.api_token r = t)) (users_rows db) = false.
Proof.
  unfold tokens. induction (users_rows db) as [|r rows IH]; simpl; [reflexivity |].
  intros Hn. apply not_elem_of_cons in Hn as [Hne Hn].
  rewrite (IH Hn), orb_false_r. apply bool_decide_eq_false_2. congruence.
Qed.

Lemma existsb_token_true (db : database) (t : list N) :
  t ∈ tokens db ->
  existsb (fun r => bool_decide (users.api_token r = t)) (users_rows db) = true.
Proof.
  unfold tokens. induction (users_rows db) as [|r rows IH]; simpl.
  - intros H. inversion H.
  - intros H. apply elem_of_cons in H as [-> | H].
    + now rewrite bool_decide_eq_true_2.
    + rewrite (IH H). apply orb_true_r.
Qed.

(** The insert goes through exactly when neither UNIQUE column holds the
    new value yet. *)
Lemma INSERT_fresh (db : database) (e t n h : list N) :
  e ∉ emails db -> t ∉ tokens db ->
  INSERT_INTO_users db e t n h =
  inr {| users_rows :=
           users_rows db ++
           [users.Row (N.max (sqlite_sequence db) (max_rowid (users_rows db)) + 1) e t n h];
         sqlite_sequence := N.max (sqlite_sequence db) (max_rowid (users_rows db)) + 1 |}.
Proof.
  intros He Ht. unfold INSERT_INTO_users.
  now rewrite (existsb_email_false _ _ He), (existsb_token_false _ _ Ht).
Qed.

Lemma INSERT_duplicate_email (db : database) (e t n h : list N) :
  e ∈ emails db -> INSERT_INTO_users db e t n h = inl IntegrityError.
Proof.
  intros He. unfold INSERT_INTO_users. now rewrite (existsb_email_true _ _ He).
Qed.

Lemma INSERT_duplicate_token (db : database) (e t n h : list N) :
  t ∈ tokens db -> INSERT_INTO_users db e t n h = inl IntegrityError.
Proof.
  intros Ht. unfold INSERT_INTO_users.
  now rewrite (existsb_token_true _ _ Ht), orb_true_r.
Qed.

(* ===================================================================== *)
(** ** [handle_message], branch by branch *)
(* ===================================================================== *)

Lemma email_is_not_name : py "email" <> py "name".
Proof. py_differ. Qed.

Lemma chat_is_not_name : py "chat" <> py "name".
Proof. py_differ. Qed.

Lemma chat_is_not_email : py "chat" <> py "email".
Proof. py_differ. Qed.

Lemma handle_message_name (urandom text : list N) (w : world) :
  step_of w = py "name" ->
  handle_message urandom text w =
  (Return tt,
   {| user_data := <["step" := py "email"]> (<["name" := text]> (user_data w));
      telegram_users_db := telegram_users_db w;
      sent := sent w ++ [EMAIL_PROMPT text] |}).
Proof.
  intros Hs. unfold handle_message, bind, user_data_get.
  change (default (py "name") (user_data w !! "step")) with (step_of w). rewrite Hs.
  now rewrite bool_decide_eq_true_2.
Qed.

Lemma handle_message_invalid (urandom text : list N) (w : world) :
  step_of w = py "email" ->
  is_valid_email unicode_alnum text = false ->
  handle_message urandom text w =
  (Return tt,
   {| user_data := user_data w;
      telegram_users_db := telegram_users_db w;
      sent := sent w ++ [INVALID_REPLY] |}).
Proof.
  intros Hs Hv. unfold handle_message, bind, user_data_get.
  change (default (py "name") (user_data w !! "step")) with (step_of w). rewrite Hs.
  rewrite (bool_decide_eq_false_2 _ email_is_not_name).
  rewrite bool_decide_eq_true_2 by reflexivity.
  now rewrite Hv.
Qed.

Lemma handle_message_refused (urandom text : list N) (w : world) :
  step_of w = py "email" ->
  is_valid_email unicode_alnum text = true ->
  INSERT_INTO_users (telegram_users_db w) text (generate_api_token urandom)
    (default (py "Невідомий") (user_data w !! "name")) [] = inl IntegrityError ->
  handle_message urandom text w =
  (Return tt,
   {| user_data := user_data w;
      telegram_users_db := telegram_users_db w;
      sent := sent w ++ [DUPLICATE_REPLY] |}).
Proof.
  intros Hs Hv Hi. unfold handle_message, bind, user_data_get.
  change (default (py "name") (user_data w !! "step")) with (step_of w). rewrite Hs.
  rewrite (bool_decide_eq_false_2 _ email_is_not_name).
  rewrite bool_decide_eq_true_2 by reflexivity.
  rewrite Hv. unfold try_except, bind, sqlite3_connect, execute_INSERT.
  cbn [telegram_users_db]. now rewrite Hi.
Qed.

Lemma handle_message_registered (urandom text : list N) (w : world) (db' : database) :
  step_of w = py "email" ->
  is_valid_email unicode_alnum text = true ->
  INSERT_INTO_users (telegram_users_db w) text (generate_api_token urandom)
    (default (py "Невідомий") (user_data w !! "name")) [] = inr db' ->
  handle_message urandom text w =
  (Return tt,
   {| user_data := <["email" := text]> (<["step" := py "chat"]> (user_data w));
      telegram_users_db := db';
      sent := sent w ++ [TOKEN_REPLY (generate_api_token urandom)] |}).
Proof.
  intros Hs Hv Hi. unfold handle_message, bind, user_data_get.
  change (default (py "name") (user_data w !! "step")) with (step_of w). rewrite Hs.
  rewrite (bool_decide_eq_false_2 _ email_is_not_name).
  rewrite bool_decide_eq_true_2 by reflexivity.
  rewrite Hv. unfold try_except, bind, sqlite3_connect, execute_INSERT.
  cbn [telegram_users_db]. now rewrite Hi.
Qed.

Lemma handle_message_chat (urandom text : list N) (w : world) :
  step_of w = py "chat" ->
  handle_message urandom text w =
  (Return tt,
   {| user_data := user_data w;
      telegram_users_db :=
        match SELECT_conversation_history (telegram_users_db w) (user_data w !! "email") with
        | Some history =>
            UPDATE_conversation_history (telegram_users_db w)
              (new_history history text) (user_data w !! "email")
        | None => telegram_users_db w
        end;
      sent := sent w ++ [SAVED_REPLY] |}).
Proof.
  intros Hs. unfold handle_message, bind, user_data_get.
  change (default (py "name") (user_data w !! "step")) with (step_of w). rewrite Hs.
  rewrite (bool_decide_eq_false_2 _ chat_is_not_name).
  rewrite (bool_decide_eq_false_2 _ chat_is_not_email).
  rewrite bool_decide_eq_true_2 by reflexivity.
  unfold user_data_get_opt, sqlite3_connect, execute_SELECT_fetchone, ret.
  destruct (SELECT_conversation_history _ _); reflexivity.
Qed.

(** Reading the step back after the handler has written it. *)
Lemma step_of_registered (ud : gmap string (list N)) (db : database)
    (out : list (list N)) (e : list N) :
  step_of {| user_data := <["email" := e]> (<["step" := py "chat"]> ud);
             telegram_users_db := db; sent := out |} = py "chat".
Proof.
  unfold step_of. cbn [user_data].
  rewrite lookup_insert_ne by discriminate. now rewrite lookup_insert_eq.
Qed.

Lemma find_app_new (e : list N) (rows : list users.row) (r : users.row) :
  e ∉ map users.email rows -> users.email r = e ->
  find (where_email (Some e)) (rows ++ [r]) = Some r.
Proof.
  intros Hn Hr. induction rows as [|r0 rows IH]; simpl.
  - now rewrite bool_decide_eq_true_2.
  - simpl in Hn. apply not_elem_of_cons in Hn as [Hne Hn].
    rewrite bool_decide_eq_false_2 by congruence. now apply IH.
Qed.

Lemma SELECT_unregistered (db : database) (param : option (list N)) :
  (forall e, param = Some e -> e ∉ emails db) ->
  SELECT_conversation_history db param = None.
Proof.
  intros Hn. unfold SELECT_conversation_history.
  destruct param as [e|].
  - specialize (Hn e eq_refl). unfold emails in Hn.
    induction (users_rows db) as [|r rows IH]; simpl; [reflexivity |].
    simpl in Hn. apply not_elem_of_cons in Hn as [Hne Hn].
    rewrite bool_decide_eq_false_2 by congruence. now apply IH.
  - induction (users_rows db) as [|r rows IH]; simpl; [reflexivity | exact IH].
Qed.

(** After the update, the select returns the value just written. *)
Lemma SELECT_after_UPDATE (db : database) (e h h' : list N) :
  SELECT_conversation_history db (Some e) = Some h ->
  SELECT_conversation_history (UPDATE_conversation_history db h' (Some e)) (Some e) = Some h'.
Proof.
  unfold SELECT_conversation_history, UPDATE_conversation_history. cbn [users_rows].
  induction (users_rows db) as [|r rows IH]; simpl; [discriminate |].
  destruct (bool_decide (users.email r = e)) eqn:Hr; simpl.
  - intros _. cbn [users.email]. now rewrite Hr.
  - intros H. rewrite Hr. now apply IH.
Qed.

(** Append-only: the old history is a prefix of the new one. *)
Lemma new_history_prefix (history message : list N) :
  history `prefix_of` new_history history message.
Proof.
  destruct history as [|c history]; simpl.
  - apply prefix_nil.
  - now apply prefix_cons, prefix_app_r.
Qed.

(** [/start] puts the conversation in step [name], whatever step it was
    in. *)
Lemma start_resets_step (w : world) :
  start w =
  (Return tt,
   {| user_data := <["step" := py "name"]> (user_data w);
      telegram_users_db := telegram_users_db w;
      sent := sent w ++ [NAME_PROMPT] |}) /\
  step_of (snd (start w)) = py "name".
Proof.
  split; [reflexivity |].
  unfold step_of. cbn [start bind reply_text user_data_set snd user_data].
  now rewrite lookup_insert_eq.
Qed.

(** A conversation in step [chat] stays there. *)
Lemma chat_is_absorbing (urandom text : list N) (w : world) :
  step_of w = py "chat" ->
  step_of (snd (handle_message urandom text w)) = py "chat".
Proof. intros Hs. now rewrite (handle_message_chat _ _ _ Hs). Qed.

Lemma chat_is_absorbing_forever (updates : list (list N * list N)) (w : world) :
  step_of w = py "chat" ->
  step_of (handle_messages updates w) = py "chat".
Proof.
  revert w. induction updates as [|[urandom text] rest IH]; intros w Hs.
  - exact Hs.
  - cbn [handle_messages]. apply IH. now apply chat_is_absorbing.
Qed.

(** The handler never lets an exception escape. *)
Lemma handle_message_returns (urandom text : list N) (w : world) :
  exists w', handle_message urandom text w = (Return tt, w').
Proof.
  unfold handle_message, bind, user_data_get.
  destruct (bool_decide _); [eexists; reflexivity |].
  destruct (bool_decide _).
  - destruct (is_valid_email _ _); [| eexists; reflexivity].
    unfold try_except, bind, sqlite3_connect, execute_INSERT.
    destruct (INSERT_INTO_users _ _ _ _ _) as [[] | db']; eexists; reflexivity.
  - destruct (bool_decide _); [| eexists; reflexivity].
    unfold user_data_get_opt, sqlite3_connect, execute_SELECT_fetchone, ret.
    destruct (SELECT_conversation_history _ _); eexists; reflexivity.
Qed.

Lemma INSERT_keeps_unique_columns (db db' : database) (e t n h : list N) :
  unique_columns db ->
  INSERT_INTO_users db e t n h = inr db' ->
  unique_columns db'.
Proof.
  intros [He Ht]. unfold INSERT_INTO_users.
  destruct (existsb _ _) eqn:H1; [discriminate |].
  destruct (existsb (fun r => bool_decide (users.api_token r = t)) _) eqn:H2;
    [discriminate |].
  cbn [orb]. intros [= <-]. unfold unique_columns, emails, tokens. cbn [users_rows].
  rewrite !map_app. cbn [map users.email users.api_token]. split.
  - apply NoDup_app. split; [exact He |]. split; [| apply NoDup_singleton].
    intros x Hx Hx'. apply list_elem_of_singleton in Hx' as ->.
    apply existsb_email_true in Hx. congruence.
  - apply NoDup_app. split; [exact Ht |]. split; [| apply NoDup_singleton].
    intros x Hx Hx'. apply list_elem_of_singleton in Hx' as ->.
    apply existsb_token_true in Hx. congruence.
Qed.

Lemma UPDATE_keeps_columns (db : database) (h : list N) (param : option (list N)) :
  emails (UPDATE_conversation_history db h param) = emails db /\
  tokens (UPDATE_conversation_history db h param) = tokens db.
Proof.
  unfold emails, tokens, UPDATE_conversation_history. cbn [users_rows].
  induction (users_rows db) as [|r rows [IHe IHt]]; [split; reflexivity |].
  cbn [map]. rewrite IHe, IHt.
  destruct (where_email param r); split; reflexivity.
Qed.

(** The handler keeps the UNIQUE columns free of duplicates. *)
Lemma handle_message_keeps_unique_columns (urandom text : list N) (w : world) :
  unique_columns (telegram_users_db w) ->
  unique_columns (telegram_users_db (snd (handle_message urandom text w))).
Proof.
  intros Hu. unfold handle_message, bind, user_data_get.
  destruct (bool_decide _); [exact Hu |].
  destruct (bool_decide _).
  - destruct (is_valid_email _ _); [| exact Hu].
    unfold try_except, bind, sqlite3_connect, execute_INSERT.
    destruct (INSERT_INTO_users _ _ _ _ _) as [[] | db'] eqn:Hi; [exact Hu |].
    exact (INSERT_keeps_unique_columns _ _ _ _ _ _ Hu Hi).
  - destruct (bool_decide _); [| exact Hu].
    unfold user_data_get_opt, sqlite3_connect, execute_SELECT_fetchone, ret.
    destruct (SELECT_conversation_history _ _) as [history|]; [| exact Hu].
    cbn. unfold unique_columns.
    destruct (UPDATE_keeps_columns (telegram_users_db w) (new_history history text)
                (user_data w !! "email")) as [-> ->].
    exact Hu.
Qed.

(** What [is_valid_email] rejects, and what the table refuses, leaves
    the conversation in step [email]. *)
Lemma rejected_keeps_email_step (urandom text : list N) (w : world) :
  step_of w = py "email" ->
  is_valid_email unicode_alnum text = false \/ text ∈ emails (telegram_users_db w) ->
  step_of (snd (handle_message urandom text w)) = py "email".
Proof.
  intros Hs [Hv | Hd].
  - now rewrite (handle_message_invalid _ _ _ Hs Hv).
  - destruct (is_valid_email unicode_alnum text) eqn:Hv.
    + rewrite (handle_message_refused _ _ _ Hs Hv); [exact Hs |].
      now apply INSERT_duplicate_email.
    + now rewrite (handle_message_invalid _ _ _ Hs Hv).
Qed.

(* ===================================================================== *)
(** ** The claims *)
(* ===================================================================== *)

(** C1, amended. In step [email], an address of the grammar that the
    table does not hold yet makes the handler return normally after
    appending exactly one row to the table, provided the token generated
    for it is not held by any row either: the row carries that address,
    that token and the empty history. The step becomes [chat], the
    address is staged under ['email'], and the one reply sent ends in
    the token. Without the proviso the insert can be refused and no row
    is created. *)
Theorem registration_creates_one_record (urandom e : list N) (w : world) :
  step_of w = py "email" ->
  email_grammar unicode_alnum e ->
  e ∉ emails (telegram_users_db w) ->
  generate_api_token urandom ∉ tokens (telegram_users_db w) ->
  exists (r : users.row) (w' : world),
    handle_message urandom e w = (Return tt, w') /\
    users_rows (telegram_users_db w') = users_rows (telegram_users_db w) ++ [r] /\
    users.email r = e /\
    users.api_token r = generate_api_token urandom /\
    users.conversation_history r = [] /\
    step_of w' = py "chat" /\
    user_data w' !! "email" = Some e /\
    sent w' = sent w ++ [TOKEN_REPLY (generate_api_token urandom)] /\
    exists pre, TOKEN_REPLY (generate_api_token urandom) = pre ++ generate_api_token urandom.
Proof.
  intros Hs Hg He Ht.
  pose proof (INSERT_fresh _ e _ (default (py "Невідомий") (user_data w !! "name")) []
                He Ht) as Hi.
  eexists _, _. split.
  - exact (handle_message_registered _ _ _ _ Hs (grammar_is_valid _ Hg) Hi).
  - cbn [telegram_users_db users_rows user_data sent users.email users.api_token
           users.conversation_history].
    repeat split.
    + apply step_of_registered.
    + apply lookup_insert_eq.
    + now exists (py "Ваш API токен: ").
Qed.

(** C3. In step [email], an address of the grammar that the table
    already holds makes the handler return normally with the user data
    (so the step, still [email]) and the whole database unchanged; the
    one reply sent is the duplicate-email reply, which differs from the
    invalid-format reply. *)
Theorem duplicate_email_is_refused (urandom e : list N) (w : world) :
  step_of w = py "email" ->
  email_grammar unicode_alnum e ->
  e ∈ emails (telegram_users_db w) ->
  handle_message urandom e w =
    (Return tt,
     {| user_data := user_data w;
        telegram_users_db := telegram_users_db w;
        sent := sent w ++ [DUPLICATE_REPLY] |}) /\
  step_of (snd (handle_message urandom e w)) = py "email" /\
  DUPLICATE_REPLY <> INVALID_REPLY.
Proof.
  intros Hs Hg He.
  assert (Hrun : handle_message urandom e w =
                 (Return tt,
                  {| user_data := user_data w;
                     telegram_users_db := telegram_users_db w;
                     sent := sent w ++ [DUPLICATE_REPLY] |})).
  { apply handle_message_refused; [exact Hs | now apply grammar_is_valid |].
    now apply INSERT_duplicate_email. }
  split; [exact Hrun |]. split.
  - rewrite Hrun. exact Hs.
  - py_differ.
Qed.

(** C4. In step [chat] with a staged address whose row holds the history
    [h], the messages [a] and then [b] are both handled normally; the
    stored history is afterwards [h] extended by the quoted [a] and then
    the quoted [b], each append keeps the previous history as a prefix,
    and from the empty history the result is the two quoted segments
    separated by a comma and a space. *)
Theorem chat_messages_are_appended_in_order (u1 u2 a b e h : list N) (w : world) :
  step_of w = py "chat" ->
  user_data w !! "email" = Some e ->
  SELECT_conversation_history (telegram_users_db w) (Some e) = Some h ->
  exists w1 w2 : world,
    handle_message u1 a w = (Return tt, w1) /\
    handle_message u2 b w1 = (Return tt, w2) /\
    SELECT_conversation_history (telegram_users_db w1) (Some e) = Some (new_history h a) /\
    SELECT_conversation_history (telegram_users_db w2) (Some e)
      = Some (new_history (new_history h a) b) /\
    h `prefix_of` new_history h a /\
    new_history h a `prefix_of` new_history (new_history h a) b /\
    (exists sep, new_history (new_history h a) b
                 = h ++ sep ++ (QUOTE :: a ++ [QUOTE]) ++ py ", " ++ (QUOTE :: b ++ [QUOTE])) /\
    (h = [] -> new_history (new_history h a) b
               = (QUOTE :: a ++ [QUOTE]) ++ py ", " ++ (QUOTE :: b ++ [QUOTE])).
Proof.
  intros Hs He Hh.
  pose proof (handle_message_chat u1 a w Hs) as H1.
  rewrite He, Hh in H1.
  set (w1 := {| user_data := user_data w;
                telegram_users_db :=
                  UPDATE_conversation_history (telegram_users_db w) (new_history h a) (Some e);
                sent := sent w ++ [SAVED_REPLY] |}) in H1.
  assert (Hh1 : SELECT_conversation_history (telegram_users_db w1) (Some e)
                = Some (new_history h a)) by exact (SELECT_after_UPDATE _ _ _ _ Hh).
  pose proof (handle_message_chat u2 b w1 Hs) as H2.
  cbn [user_data w1] in H2. rewrite He in H2. fold w1 in H2. rewrite Hh1 in H2.
  eexists _, _. split; [exact H1 |]. split; [exact H2 |].
  cbn [telegram_users_db]. repeat split.
  - exact Hh1.
  - exact (SELECT_after_UPDATE _ _ _ _ Hh1).
  - apply new_history_prefix.
  - apply new_history_prefix.
  - destruct h as [|c h].
    + exists []. reflexivity.
    + exists (py ", "). cbn [new_history app]. f_equal.
      repeat (rewrite <- app_assoc || rewrite <- app_comm_cons). reflexivity.
  - intros ->. reflexivity.
Qed.

(** C5. In step [chat], when the staged address (if there is one) has no
    row, the handler returns normally, the database and the user data
    are exactly what they were, and the acknowledgment is sent. *)
Theorem chat_without_record_is_silent (urandom message : list N) (w : world) :
  step_of w = py "chat" ->
  (forall e, user_data w !! "email" = Some e -> e ∉ emails (telegram_users_db w)) ->
  handle_message urandom message w =
    (Return tt,
     {| user_data := user_data w;
        telegram_users_db := telegram_users_db w;
        sent := sent w ++ [SAVED_REPLY] |}).
Proof.
  intros Hs Hn. rewrite (handle_message_chat _ _ _ Hs).
  now rewrite (SELECT_unregistered _ _ Hn).
Qed.

(** C8. After a successful registration, selecting the row of the
    address from the table yields the address, the token and the name
    that were written, and the empty history. *)
Theorem registered_record_reads_back (urandom e : list N) (w : world) :
  step_of w = py "email" ->
  email_grammar unicode_alnum e ->
  e ∉ emails (telegram_users_db w) ->
  generate_api_token urandom ∉ tokens (telegram_users_db w) ->
  exists (r : users.row) (w' : world),
    handle_message urandom e w = (Return tt, w') /\
    find (where_email (Some e)) (users_rows (telegram_users_db w')) = Some r /\
    users.email r = e /\
    users.api_token r = generate_api_token urandom /\
    users.name r = default (py "Невідомий") (user_data w !! "name") /\
    users.conversation_history r = [] /\
    SELECT_conversation_history (telegram_users_db w') (Some e) = Some [].
Proof.
  intros Hs Hg He Ht.
  pose proof (INSERT_fresh _ e _ (default (py "Невідомий") (user_data w !! "name")) []
                He Ht) as Hi.
  exists (users.Row (N.max (sqlite_sequence (telegram_users_db w))
                       (max_rowid (users_rows (telegram_users_db w))) + 1)
            e (generate_api_token urandom)
            (default (py "Невідомий") (user_data w !! "name")) []).
  eexists. split.
  - exact (handle_message_registered _ _ _ _ Hs (grammar_is_valid _ Hg) Hi).
  - unfold SELECT_conversation_history. cbn [telegram_users_db users_rows].
    rewrite (find_app_new e _ (users.Row _ e _ _ _) He eq_refl). repeat split.
Qed.

(** C9. [/start] always answers with the name prompt and sets the step
    to [name]; whatever text comes next is staged under ['name'] and the
    step becomes [email]. *)
Theorem conversation_opens_with_name_prompt (urandom m : list N) (w : world) :
  exists w1 w2 : world,
    start w = (Return tt, w1) /\
    sent w1 = sent w ++ [NAME_PROMPT] /\
    step_of w1 = py "name" /\
    handle_message urandom m w1 = (Return tt, w2) /\
    user_data w2 !! "name" = Some m /\
    step_of w2 = py "email".
Proof.
  eexists _, _. split; [reflexivity |].
  assert (Hs : step_of {| user_data := <["step" := py "name"]> (user_data w);
                          telegram_users_db := telegram_users_db w;
                          sent := sent w ++ [NAME_PROMPT] |} = py "name").
  { unfold step_of. cbn [user_data]. now rewrite lookup_insert_eq. }
  split; [reflexivity |]. split; [exact Hs |]. split.
  - exact (handle_message_name urandom m _ Hs).
  - cbn [user_data]. split.
    + rewrite lookup_insert_ne by discriminate. apply lookup_insert_eq.
    + unfold step_of. cbn [user_data]. now rewrite lookup_insert_eq.
Qed.

(** C10. In step [email], when the address is new but the generated
    token is already held by some row, the insert raises the same
    IntegrityError as for a duplicate address: the reply is the
    duplicate-email reply and the user data (so the step) and the
    database stay as they were. *)
Theorem token_collision_is_reported_as_duplicate (urandom e : list N) (w : world) :
  step_of w = py "email" ->
  email_grammar unicode_alnum e ->
  e ∉ emails (telegram_users_db w) ->
  generate_api_token urandom ∈ tokens (telegram_users_db w) ->
  INSERT_INTO_users (telegram_users_db w) e (generate_api_token urandom)
    (default (py "Невідомий") (user_data w !! "name")) [] = inl IntegrityError /\
  handle_message urandom e w =
    (Return tt,
     {| user_data := user_data w;
        telegram_users_db := telegram_users_db w;
        sent := sent w ++ [DUPLICATE_REPLY] |}) /\
  step_of (snd (handle_message urandom e w)) = py "email".
Proof.
  intros Hs Hg _ Ht.
  pose proof (INSERT_duplicate_token (telegram_users_db w) e _
                (default (py "Невідомий") (user_data w !! "name")) [] Ht) as Hi.
  pose proof (handle_message_refused _ _ _ Hs (grammar_is_valid _ Hg) Hi) as Hrun.
  split; [exact Hi |]. split; [exact Hrun |].
  rewrite Hrun. exact Hs.
Qed.

(** The run behind C2, C6 and C7: in step [email] with an empty table,
    the text [a@b.c] followed by a newline is registered. *)
Lemma newline_address_run (urandom : list N) :
  handle_message urandom (py "a@b.c" ++ [NEWLINE]) (at_email (create_db None)) =
  (Return tt,
   {| user_data :=
        <["email" := py "a@b.c" ++ [NEWLINE]]>
          (<["step" := py "chat"]> (user_data (at_email (create_db None))));
      telegram_users_db :=
        {| users_rows :=
             [users.Row 1 (py "a@b.c" ++ [NEWLINE]) (generate_api_token urandom)
                (py "Bob") []];
           sqlite_sequence := 1 |};
      sent := [TOKEN_REPLY (generate_api_token urandom)] |}).
Proof.
  apply handle_message_registered.
  - vm_compute. reflexivity.
  - vm_compute. reflexivity.
  - reflexivity.
Qed.

(** C2. The validator accepts every string of the grammar, but it also
    accepts [a@b.c] followed by a newline, which is no string of the
    grammar: [$] matches before a final newline. *)
Theorem validator_accepts_trailing_newline :
  (forall e, email_grammar unicode_alnum e -> is_valid_email unicode_alnum e = true) /\
  is_valid_email unicode_alnum (py "a@b.c" ++ [NEWLINE]) = true /\
  ~ email_grammar unicode_alnum (py "a@b.c" ++ [NEWLINE]).
Proof.
  split; [exact grammar_is_valid |]. split.
  - apply is_valid_email_spec. right. exists (py "a@b.c"). split; [reflexivity |].
    exists (py "a"), (py "b"), (py "c").
    repeat split; try py_differ; vm_compute; reflexivity.
  - apply email_grammar_no_trailing_newline.
Qed.

(** C6. A conversation in step [chat] stays in [chat] whatever messages
    follow; but a conversation in step [email] that receives [a@b.c]
    followed by a newline, a text outside the grammar, moves on to
    [chat]. *)
Theorem step_after_chat_and_after_newline_address (urandom : list N) :
  (forall updates w, step_of w = py "chat" ->
                     step_of (handle_messages updates w) = py "chat") /\
  step_of (at_email (create_db None)) = py "email" /\
  ~ email_grammar unicode_alnum (py "a@b.c" ++ [NEWLINE]) /\
  step_of (snd (handle_message urandom (py "a@b.c" ++ [NEWLINE]) (at_email (create_db None))))
    = py "chat".
Proof.
  split; [exact chat_is_absorbing_forever |]. split; [vm_compute; reflexivity |]. split.
  - apply email_grammar_no_trailing_newline.
  - rewrite newline_address_run. apply step_of_registered.
Qed.

(** C7. In step [email] with an empty table, the text [a@b.c] followed
    by a newline is outside the grammar, yet it is not answered with the
    invalid-format reply: the step becomes [chat], a row is inserted for
    it and the reply carries the token. *)
Theorem newline_address_is_registered (urandom : list N) :
  ~ email_grammar unicode_alnum (py "a@b.c" ++ [NEWLINE]) /\
  step_of (snd (handle_message urandom (py "a@b.c" ++ [NEWLINE]) (at_email (create_db None))))
    = py "chat" /\
  telegram_users_db
    (snd (handle_message urandom (py "a@b.c" ++ [NEWLINE]) (at_email (create_db None))))
    = {| users_rows :=
           [users.Row 1 (py "a@b.c" ++ [NEWLINE]) (generate_api_token urandom)
              (py "Bob") []];
         sqlite_sequence := 1 |} /\
  sent (snd (handle_message urandom (py "a@b.c" ++ [NEWLINE]) (at_email (create_db None))))
    = [TOKEN_REPLY (generate_api_token urandom)] /\
  TOKEN_REPLY (generate_api_token urandom) <> INVALID_REPLY.
Proof.
  split; [apply email_grammar_no_trailing_newline |].
  rewrite newline_address_run. split; [apply step_of_registered |].
  cbn [snd telegram_users_db sent].
  split; [reflexivity |]. split; [reflexivity |].
  intros H. apply (f_equal (take 1)) in H. vm_compute in H. discriminate H.
Qed.

(* ===================================================================== *)
(** ** Beyond the claims: the validator *)
(* ===================================================================== *)

(** An accepted text splits into local part, [@], domain, a dot, a last
    label, and at most one final newline. *)
Lemma valid_email_parts (e : list N) :
  is_valid_email unicode_alnum e = true ->
  exists l d t tail : list N,
    e = l ++ AT :: d ++ DOT :: t ++ tail /\
    (tail = [] \/ tail = [NEWLINE]) /\
    l <> [] /\ forallb (in_charset unicode_alnum name_chars) l = true /\
    d <> [] /\ forallb (in_charset unicode_alnum name_chars) d = true /\
    t <> [] /\ forallb (is_word unicode_alnum) t = true.
Proof.
  intros H. apply is_valid_email_spec in H
    as [(l & d & t & -> & Hl & Hal & Hd & Had & Ht & Hat)
       | (e0 & -> & l & d & t & -> & Hl & Hal & Hd & Had & Ht & Hat)].
  - exists l, d, t, []. rewrite app_nil_r. repeat split; auto.
  - exists l, d, t, [NEWLINE]. repeat split; auto.
    now rewrite <- !app_assoc, <- !app_comm_cons, <- app_assoc.
Qed.

Lemma count_occ_outside (f : N -> bool) (c : N) (s : list N) :
  f c = false -> forallb f s = true -> count_occ N.eq_dec s c = 0%nat.
Proof.
  intros Hc. induction s as [|x s IH]; simpl; [reflexivity |].
  intros H. apply andb_true_iff in H as [Hx Hs].
  destruct (N.eq_dec x c) as [-> | _]; [congruence | now apply IH].
Qed.

Lemma word_is_name_char (c : N) :
  is_word unicode_alnum c = true -> in_charset unicode_alnum name_chars c = true.
Proof. intros H. cbn [in_charset name_chars]. now rewrite H. Qed.

Lemma forallb_word_name (s : list N) :
  forallb (is_word unicode_alnum) s = true ->
  forallb (in_charset unicode_alnum name_chars) s = true.
Proof.
  rewrite !forallb_forall. intros H x Hx. apply word_is_name_char. now apply H.
Qed.

(** X1. The language of the validator: a text is accepted exactly when
    it is a string of the grammar or such a string followed by one
    newline. *)
Theorem validator_language (e : list N) :
  is_valid_email unicode_alnum e = true <->
  email_grammar unicode_alnum e \/
  exists e0, e = e0 ++ [NEWLINE] /\ email_grammar unicode_alnum e0.
Proof.
  split; intros H.
  - now apply is_valid_email_spec.
  - now apply is_valid_email_spec.
Qed.

(** X2. An accepted text holds exactly one [@]. *)
Theorem valid_address_has_one_at (e : list N) :
  is_valid_email unicode_alnum e = true ->
  count_occ N.eq_dec e AT = 1%nat.
Proof.
  intros H. apply valid_email_parts in H
    as (l & d & t & tail & -> & Htail & _ & Hal & _ & Had & _ & Hat).
  assert (Hname : in_charset unicode_alnum name_chars AT = false) by reflexivity.
  rewrite count_occ_app, (count_occ_outside _ _ _ Hname Hal).
  rewrite count_occ_cons_eq by reflexivity.
  rewrite count_occ_app, (count_occ_outside _ _ _ Hname Had).
  rewrite count_occ_cons_neq by discriminate.
  rewrite count_occ_app, (count_occ_outside _ _ _ Hname (forallb_word_name _ Hat)).
  destruct Htail as [-> | ->]; reflexivity.
Qed.

(** X3. An accepted text is made of word characters, dots, hyphens, the
    one [@] and the possible final newline: no blank or other
    punctuation gets through. *)
Theorem valid_address_alphabet (e : list N) :
  is_valid_email unicode_alnum e = true ->
  forallb (address_char unicode_alnum) e = true.
Proof.
  intros H. apply valid_email_parts in H
    as (l & d & t & tail & -> & Htail & _ & Hal & _ & Had & _ & Hat).
  assert (Hsub : forall s, forallb (in_charset unicode_alnum name_chars) s = true ->
                           forallb (address_char unicode_alnum) s = true).
  { intros s. rewrite !forallb_forall. intros Hs x Hx.
    unfold address_char. now rewrite (Hs x Hx). }
  rewrite forallb_app, (Hsub _ Hal). cbn [forallb andb].
  replace (address_char unicode_alnum AT) with true by reflexivity. cbn [andb].
  rewrite forallb_app, (Hsub _ Had). cbn [forallb andb].
  replace (address_char unicode_alnum DOT) with true by reflexivity. cbn [andb].
  rewrite forallb_app, (Hsub _ (forallb_word_name _ Hat)).
  destruct Htail as [-> | ->]; reflexivity.
Qed.

(** X4. Nothing shorter than five characters is accepted; the empty
    text in particular is rejected. *)
Theorem short_text_is_rejected (e : list N) :
  (length e < 5)%nat -> is_valid_email unicode_alnum e = false.
Proof.
  intros Hlen. destruct (is_valid_email unicode_alnum e) eqn:H; [| reflexivity].
  apply valid_email_parts in H
    as (l & d & t & tail & -> & _ & Hl & _ & Hd & _ & Ht & _).
  destruct l; [congruence |]. destruct d; [congruence |]. destruct t; [congruence |].
  rewrite !length_app in Hlen. cbn [length] in Hlen.
  rewrite !length_app in Hlen. cbn [length app] in Hlen. lia.
Qed.

(* ===================================================================== *)
(** ** Beyond the claims: the token *)
(* ===================================================================== *)

Lemma hex_fixed_length (w : nat) (n : N) : length (hex_fixed w n) = w.
Proof.
  revert n. induction w as [|w IH]; intros n; cbn [hex_fixed]; [reflexivity |].
  rewrite length_app, IH. cbn [length]. lia.
Qed.

Lemma hex_digit_is_hex (d : N) : d < 16 -> is_hex_char (hex_digit d) = true.
Proof.
  intros Hd. unfold is_hex_char, hex_digit.
  destruct (N.ltb_spec d 10).
  - apply orb_true_iff. left. apply andb_true_iff. split; apply N.leb_le; lia.
  - apply orb_true_iff. right. apply andb_true_iff. split; apply N.leb_le; lia.
Qed.

Lemma hex_fixed_chars (w : nat) (n : N) : forallb is_hex_char (hex_fixed w n) = true.
Proof.
  revert n. induction w as [|w IH]; intros n; cbn [hex_fixed]; [reflexivity |].
  rewrite forallb_app, IH. cbn [forallb andb]. rewrite andb_true_r.
  apply hex_digit_is_hex. apply N.mod_lt. discriminate.
Qed.

(** The digit at index [i], counted from the left, shows the bits
    [4 * (w - 1 - i)] and the three above. *)
Lemma hex_fixed_lookup (w : nat) (n : N) (i : nat) :
  (i < w)%nat ->
  hex_fixed w n !! i
  = Some (hex_digit (N.shiftr n (4 * N.of_nat (w - 1 - i)) mod 16)).
Proof.
  revert n i. induction w as [|w IH]; intros n i Hi; [lia |].
  cbn [hex_fixed]. destruct (decide (i < w)%nat) as [Hlt | Hge].
  - rewrite lookup_app_l by (rewrite hex_fixed_length; exact Hlt).
    rewrite (IH _ _ Hlt). do 2 f_equal.
    replace (n / 16) with (N.shiftr n 4) by (rewrite N.shiftr_div_pow2; reflexivity).
    rewrite N.shiftr_shiftr. do 2 f_equal. lia.
  - assert (i = w) as -> by lia.
    rewrite lookup_app_r by (rewrite hex_fixed_length; lia).
    rewrite hex_fixed_length.
    replace (w - w)%nat with 0%nat by lia.
    replace (S w - 1 - w)%nat with 0%nat by lia.
    cbn [lookup list_lookup N.of_nat]. now rewrite N.mul_0_r, N.shiftr_0_r.
Qed.

(** The grouping 8-4-4-4-12 of thirty-two digits. *)
Lemma grouping_layout (hex : list N) :
  length hex = 32%nat ->
  let tok := take 8 hex ++ HYPHEN :: take 4 (drop 8 hex) ++ HYPHEN :: take 4 (drop 12 hex)
               ++ HYPHEN :: take 4 (drop 16 hex) ++ HYPHEN :: drop 20 hex in
  length tok = 36%nat /\
  tok !! 8%nat = Some HYPHEN /\ tok !! 13%nat = Some HYPHEN /\
  tok !! 18%nat = Some HYPHEN /\ tok !! 23%nat = Some HYPHEN /\
  tok !! 14%nat = hex !! 12%nat /\ tok !! 19%nat = hex !! 16%nat /\
  (forallb is_hex_char hex = true ->
   forallb (fun c => is_hex_char c || (c =? HYPHEN)) tok = true).
Proof.
  intros Hlen.
  do 32 (destruct hex as [|? hex]; [discriminate Hlen |]).
  destruct hex; [| discriminate Hlen].
  cbv zeta. cbn [firstn skipn app].
  repeat split.
  intros H. cbn [forallb] in H |- *.
  repeat (apply andb_true_iff in H as [? H]).
  repeat (apply andb_true_iff; split);
    try (apply orb_true_iff; left; assumption); reflexivity.
Qed.

(** The version nibble, bits 76 to 79, is 4. *)
Lemma version_nibble (y : N) :
  N.shiftr (N.lor (N.ldiff y (N.shiftl 0xf000 64)) (N.shiftl 4 76)) 76 mod 16 = 4.
Proof.
  change 16 with (2 ^ 4). rewrite <- N.land_ones.
  apply N.bits_inj. intros i.
  rewrite N.land_spec, N.shiftr_spec', N.lor_spec, N.ldiff_spec.
  destruct (N.lt_ge_cases i 4) as [Hlt | Hge].
  - assert (Hi : i = 0 \/ i = 1 \/ i = 2 \/ i = 3) by lia.
    destruct Hi as [-> | [-> | [-> | ->]]];
      cbn [N.add Pos.add Pos.succ];
      rewrite andb_false_r; reflexivity.
  - rewrite (N.ones_spec_high 4 i Hge), andb_false_r.
    symmetry. apply N.bits_above_log2. cbn. lia.
Qed.

(** The variant nibble, bits 60 to 63, is one of 8, 9, 10, 11. *)
Lemma variant_nibble (x : list N) :
  let v := N.shiftr (UUID_v4 x) 60 mod 16 in
  v = 8 \/ v = 9 \/ v = 10 \/ v = 11.
Proof.
  cbv zeta. unfold UUID_v4. cbv zeta.
  set (n := N.lor _ (N.shiftl 4 76)).
  assert (H3 : N.testbit (N.shiftr n 60 mod 16) 3 = true).
  { change 16 with (2 ^ 4). rewrite <- N.land_ones, N.land_spec, N.shiftr_spec'.
    subst n. rewrite N.lor_spec, N.ldiff_spec, N.lor_spec, N.ldiff_spec.
    cbn [N.add Pos.add Pos.succ]. rewrite orb_true_r. reflexivity. }
  assert (H2 : N.testbit (N.shiftr n 60 mod 16) 2 = false).
  { change 16 with (2 ^ 4). rewrite <- N.land_ones, N.land_spec, N.shiftr_spec'.
    subst n. rewrite N.lor_spec, N.ldiff_spec, N.lor_spec, N.ldiff_spec.
    cbn [N.add Pos.add Pos.succ]. rewrite andb_false_r. reflexivity. }
  assert (Hlt : N.shiftr n 60 mod 16 < 16) by (apply N.mod_lt; discriminate).
  set (v := N.shiftr n 60 mod 16) in *.
  assert (Hv : v = 0 \/ v = 1 \/ v = 2 \/ v = 3 \/ v = 4 \/ v = 5 \/ v = 6 \/ v = 7 \/
               v = 8 \/ v = 9 \/ v = 10 \/ v = 11 \/ v = 12 \/ v = 13 \/ v = 14 \/ v = 15)
    by lia.
  clearbody v.
  repeat (destruct Hv as [-> | Hv]; [first [discriminate H3 | discriminate H2 | tauto] |]).
  subst v. first [discriminate H3 | discriminate H2].
Qed.

(** Position by position: a hyphen at 8, 13, 18 and 23, a digit of
    [hex] everywhere else. *)
Lemma grouping_positions (hex : list N) :
  length hex = 32%nat ->
  forallb is_hex_char hex = true ->
  forall (i : nat) (c : N),
    (take 8 hex ++ HYPHEN :: take 4 (drop 8 hex) ++ HYPHEN :: take 4 (drop 12 hex)
       ++ HYPHEN :: take 4 (drop 16 hex) ++ HYPHEN :: drop 20 hex) !! i = Some c ->
    if is_hyphen_position i then c = HYPHEN else is_hex_char c = true.
Proof.
  intros Hlen Hall.
  do 32 (destruct hex as [|? hex]; [discriminate Hlen |]).
  destruct hex; [| discriminate Hlen].
  cbn [forallb] in Hall. repeat (apply andb_true_iff in Hall as [? Hall]).
  cbn [firstn skipn app]. intros i c Hi.
  do 36 (destruct i as [|i];
         [cbn [lookup list_lookup] in Hi; injection Hi as <-;
          cbn [is_hyphen_position Nat.eqb orb]; first [reflexivity | assumption] |]).
  cbn [lookup list_lookup] in Hi. discriminate Hi.
Qed.

(** X5. Whatever bytes [os.urandom] returns, the token has thirty-six
    characters; the characters at the positions 8, 13, 18 and 23 are
    hyphens and the character at every other position is a lowercase
    hexadecimal digit. *)
Theorem token_shape (urandom : list N) :
  length (generate_api_token urandom) = 36%nat /\
  forall (i : nat) (c : N),
    generate_api_token urandom !! i = Some c ->
    if is_hyphen_position i then c = HYPHEN else is_hex_char c = true.
Proof.
  destruct (grouping_layout (hex_fixed 32 (UUID_v4 urandom)) (hex_fixed_length _ _))
    as (Hlen & _).
  split; [exact Hlen |].
  unfold generate_api_token, UUID_str. cbv zeta.
  apply grouping_positions; [apply hex_fixed_length | apply hex_fixed_chars].
Qed.

(** X6. The token is a version-4, RFC 4122 identifier whatever the
    entropy: the character at position 14 is the digit 4 and the one at
    position 19 is 8, 9, a or b. *)
Theorem token_version_and_variant (urandom : list N) :
  generate_api_token urandom !! 14%nat = Some 52 /\
  exists c, generate_api_token urandom !! 19%nat = Some c /\
            (c = 56 \/ c = 57 \/ c = 97 \/ c = 98).
Proof.
  destruct (grouping_layout (hex_fixed 32 (UUID_v4 urandom)) (hex_fixed_length _ _))
    as (_ & _ & _ & _ & _ & H14 & H19 & _).
  unfold generate_api_token, UUID_str. cbv zeta. cbv zeta in H14, H19.
  rewrite H14, H19. rewrite !hex_fixed_lookup by lia.
  change (4 * N.of_nat (32 - 1 - 12)) with 76.
  change (4 * N.of_nat (32 - 1 - 16)) with 60. split.
  - unfold UUID_v4. cbv zeta. now rewrite version_nibble.
  - eexists. split; [reflexivity |].
    pose proof (variant_nibble urandom) as Hv. cbv zeta in Hv.
    destruct Hv as [-> | [-> | [-> | ->]]]; cbn; tauto.
Qed.

(* ===================================================================== *)
(** ** Beyond the claims: what the handlers do to the database *)
(* ===================================================================== *)

(** A text leaves the database alone, or inserts the row of a
    registration, or rewrites the history of the staged address. *)
Lemma handle_message_db_cases (urandom text : list N) (w : world) :
  telegram_users_db (snd (handle_message urandom text w)) = telegram_users_db w \/
  (step_of w = py "email" /\
   INSERT_INTO_users (telegram_users_db w) text (generate_api_token urandom)
     (default (py "Невідомий") (user_data w !! "name")) []
   = inr (telegram_users_db (snd (handle_message urandom text w)))) \/
  (step_of w = py "chat" /\
   exists old,
     SELECT_conversation_history (telegram_users_db w) (user_data w !! "email") = Some old /\
     telegram_users_db (snd (handle_message urandom text w))
     = UPDATE_conversation_history (telegram_users_db w) (new_history old text)
         (user_data w !! "email")).
Proof.
  destruct (decide (step_of w = py "name")) as [Hn | Hn].
  { left. now rewrite (handle_message_name _ _ _ Hn). }
  destruct (decide (step_of w = py "email")) as [He | He].
  { destruct (is_valid_email unicode_alnum text) eqn:Hv.
    - destruct (INSERT_INTO_users (telegram_users_db w) text (generate_api_token urandom)
                  (default (py "Невідомий") (user_data w !! "name")) [])
        as [[] | db'] eqn:Hi.
      + left. now rewrite (handle_message_refused _ _ _ He Hv Hi).
      + right. left. split; [exact He |].
        now rewrite (handle_message_registered _ _ _ _ He Hv Hi).
    - left. now rewrite (handle_message_invalid _ _ _ He Hv). }
  destruct (decide (step_of w = py "chat")) as [Hc | Hc].
  { rewrite (handle_message_chat _ _ _ Hc). cbn [snd telegram_users_db].
    destruct (SELECT_conversation_history _ _) as [old |] eqn:Hsel.
    - right. right. split; [exact Hc |]. now exists old.
    - now left. }
  left. unfold handle_message, bind, user_data_get.
  change (default (py "name") (user_data w !! "step")) with (step_of w).
  now rewrite !bool_decide_eq_false_2.
Qed.

(** A property of the database that a successful insert and an update
    keep is kept along every run. *)
Lemma run_polling_db_invariant (P : database -> Prop) :
  (forall db db' e t n h, P db -> INSERT_INTO_users db e t n h = inr db' -> P db') ->
  (forall db old text p,
      P db -> SELECT_conversation_history db p = Some old ->
      P (UPDATE_conversation_history db (new_history old text) p)) ->
  forall updates w,
    P (telegram_users_db w) -> P (telegram_users_db (run_polling updates w)).
Proof.
  intros Hins Hupd updates. induction updates as [|u rest IH]; intros w HP; [exact HP |].
  cbn [run_polling]. apply IH. destruct u as [| urandom text |]; cbn [dispatch].
  - exact HP.
  - destruct (handle_message_db_cases urandom text w)
      as [-> | [(_ & Hi) | (_ & old & Hsel & ->)]].
    + exact HP.
    + exact (Hins _ _ _ _ _ _ HP Hi).
    + now apply Hupd.
  - exact HP.
Qed.

Lemma UPDATE_keeps_unique_columns (db : database) (h : list N) (p : option (list N)) :
  unique_columns db -> unique_columns (UPDATE_conversation_history db h p).
Proof.
  unfold unique_columns.
  destruct (UPDATE_keeps_columns db h p) as [-> ->]. tauto.
Qed.

(** X7. Whatever updates arrive, the two UNIQUE columns stay free of
    duplicates: no address and no token is ever stored twice. *)
Theorem unique_columns_are_kept (updates : list update) (w : world) :
  unique_columns (telegram_users_db w) ->
  unique_columns (telegram_users_db (run_polling updates w)).
Proof.
  apply (run_polling_db_invariant unique_columns).
  - intros db db' e t n h Hu Hi. exact (INSERT_keeps_unique_columns _ _ _ _ _ _ Hu Hi).
  - intros db old text p Hu _. now apply UPDATE_keeps_unique_columns.
Qed.

Lemma rowid_le_max (rows : list users.row) (r : users.row) :
  r ∈ rows -> users.id r <= max_rowid rows.
Proof.
  induction rows as [|r0 rows IH]; intros Hin; [inversion Hin |].
  cbn [max_rowid fold_right]. fold (max_rowid rows).
  apply elem_of_cons in Hin as [-> | Hin]; [lia |].
  specialize (IH Hin). lia.
Qed.

Lemma INSERT_keeps_rowids (db db' : database) (e t n h : list N) :
  NoDup (rowids db) -> INSERT_INTO_users db e t n h = inr db' -> NoDup (rowids db').
Proof.
  intros Hnd. unfold INSERT_INTO_users.
  destruct (_ || _); [discriminate |]. intros [= <-].
  unfold rowids. cbn [users_rows]. rewrite map_app. cbn [map users.id].
  apply NoDup_app. split; [exact Hnd |]. split; [| apply NoDup_singleton].
  intros x Hx Hx'. apply list_elem_of_singleton in Hx' as ->.
  apply list_elem_of_fmap in Hx as (r & Hid & Hr).
  pose proof (rowid_le_max _ _ Hr). lia.
Qed.

Lemma UPDATE_keeps_rowids (db : database) (h : list N) (p : option (list N)) :
  rowids (UPDATE_conversation_history db h p) = rowids db.
Proof.
  unfold rowids, UPDATE_conversation_history. cbn [users_rows].
  induction (users_rows db) as [|r rows IH]; [reflexivity |].
  cbn [map]. rewrite IH. now destruct (where_email p r).
Qed.

(** X8. The primary key stays a key. When the rowids of the table are
    pairwise different and both the largest of them and
    [sqlite_sequence] are below SQLite's ceiling, one call of
    [handle_message] leaves the rowids pairwise different, and a rowid
    that was not there before is above every rowid of the table and
    above [sqlite_sequence], and within the ceiling. *)
Theorem rowids_stay_unique (urandom text : list N) (w : world) :
  NoDup (rowids (telegram_users_db w)) ->
  N.max (sqlite_sequence (telegram_users_db w))
        (max_rowid (users_rows (telegram_users_db w))) < MAX_ROWID ->
  NoDup (rowids (telegram_users_db (snd (handle_message urandom text w)))) /\
  forall rowid,
    rowid ∈ rowids (telegram_users_db (snd (handle_message urandom text w))) ->
    rowid ∈ rowids (telegram_users_db w) \/
    ((forall old, old ∈ rowids (telegram_users_db w) -> old < rowid) /\
     sqlite_sequence (telegram_users_db w) < rowid /\
     rowid <= MAX_ROWID).
Proof.
  intros Hnd Hmax.
  destruct (handle_message_db_cases urandom text w)
    as [-> | [(_ & Hi) | (_ & old & _ & ->)]].
  - split; [exact Hnd | now left].
  - split; [exact (INSERT_keeps_rowids _ _ _ _ _ _ Hnd Hi) |].
    revert Hi. unfold INSERT_INTO_users. destruct (_ || _); [discriminate |].
    intros [= <-]. unfold rowids. cbn [users_rows]. rewrite map_app.
    cbn [map users.id]. intros rowid Hin.
    apply elem_of_app in Hin as [Hin | Hin]; [now left |].
    apply list_elem_of_singleton in Hin as ->. right. split; [| lia].
    intros old Hold. apply list_elem_of_fmap in Hold as (r & -> & Hr).
    pose proof (rowid_le_max _ _ Hr). lia.
  - rewrite UPDATE_keeps_rowids. split; [exact Hnd | now left].
Qed.

Lemma same_user_refl (r : users.row) : same_user r r.
Proof. unfold same_user. repeat split; reflexivity. Qed.

Lemma same_user_trans (r1 r2 r3 : users.row) :
  same_user r1 r2 -> same_user r2 r3 -> same_user r1 r3.
Proof.
  intros (Hi & He & Ht & Hn & Hh) (Hi' & He' & Ht' & Hn' & Hh').
  unfold same_user. repeat split; try congruence.
  now transitivity (users.conversation_history r2).
Qed.

Lemma Forall2_same_user_refl (rows : list users.row) : Forall2 same_user rows rows.
Proof. induction rows; constructor; [apply same_user_refl | assumption]. Qed.

Lemma extends_refl (db : database) : extends db db.
Proof.
  exists (users_rows db), []. split; [now rewrite app_nil_r |].
  apply Forall2_same_user_refl.
Qed.

Lemma extends_trans (db1 db2 db3 : database) :
  extends db1 db2 -> extends db2 db3 -> extends db1 db3.
Proof.
  intros (k1 & a1 & E1 & F1) (k2 & a2 & E2 & F2).
  rewrite E1 in F2. apply Forall2_app_inv_l in F2 as (k2a & k2b & Fa & Fb & ->).
  exists k2a, (k2b ++ a2). split; [now rewrite E2, app_assoc |].
  exact (Forall2_trans _ _ _ _ _ _ same_user_trans F1 Fa).
Qed.

Lemma INSERT_extends (db db' : database) (e t n h : list N) :
  INSERT_INTO_users db e t n h = inr db' -> extends db db'.
Proof.
  unfold INSERT_INTO_users. destruct (_ || _); [discriminate |]. intros [= <-].
  eexists _, _. cbn [users_rows]. split; [reflexivity |].
  apply Forall2_same_user_refl.
Qed.

(** With unique addresses the update meets one row only, the row whose
    history the select returned. *)
Lemma UPDATE_extends (db : database) (old text : list N) (p : option (list N)) :
  NoDup (emails db) ->
  SELECT_conversation_history db p = Some old ->
  extends db (UPDATE_conversation_history db (new_history old text) p).
Proof.
  intros Hnd Hsel.
  exists (users_rows (UPDATE_conversation_history db (new_history old text) p)), [].
  split; [now rewrite app_nil_r |].
  cbn [UPDATE_conversation_history users_rows].
  revert Hnd Hsel. unfold emails, SELECT_conversation_history.
  induction (users_rows db) as [|r rows IH]; intros Hnd Hsel; [constructor |].
  cbn [map] in Hnd |- *. apply NoDup_cons in Hnd as [Hr Hnd].
  cbn [find] in Hsel. destruct (where_email p r) eqn:Hw.
  - cbn in Hsel. injection Hsel as <-. constructor.
    + unfold same_user. cbn. repeat split. apply new_history_prefix.
    + destruct p as [e |]; [| discriminate Hw].
      cbn in Hw. apply bool_decide_eq_true_1 in Hw. subst e.
      clear IH. induction rows as [|r' rows IH']; [constructor |].
      cbn [map] in Hr |- *. apply not_elem_of_cons in Hr as [Hne Hr].
      cbn [where_email]. rewrite bool_decide_eq_false_2 by congruence.
      constructor; [apply same_user_refl |].
      apply NoDup_cons in Hnd as [_ Hnd]. now apply IH'.
  - constructor; [apply same_user_refl | now apply IH].
Qed.

(** X9. The table is append-only: along every run from a table with
    unique addresses, each row stays in its place with its rowid,
    address, token and name, its history only grows at the end, and new
    rows come after the old ones. *)
Theorem store_is_append_only (updates : list update) (w : world) :
  unique_columns (telegram_users_db w) ->
  extends (telegram_users_db w) (telegram_users_db (run_polling updates w)).
Proof.
  intros Hu.
  apply (run_polling_db_invariant
           (fun db => unique_columns db /\ extends (telegram_users_db w) db)).
  - intros db db' e t n h [Hu' Hext] Hi. split.
    + exact (INSERT_keeps_unique_columns _ _ _ _ _ _ Hu' Hi).
    + exact (extends_trans _ _ _ Hext (INSERT_extends _ _ _ _ _ _ Hi)).
  - intros db old text p [Hu' Hext] Hsel. split.
    + now apply UPDATE_keeps_unique_columns.
    + apply (extends_trans _ _ _ Hext). apply UPDATE_extends; [apply Hu' | exact Hsel].
  - split; [exact Hu | apply extends_refl].
Qed.

Lemma find_app_other (e' : list N) (rows : list users.row) (r : users.row) :
  users.email r <> e' ->
  find (where_email (Some e')) (rows ++ [r]) = find (where_email (Some e')) rows.
Proof.
  intros Hne. induction rows as [|r0 rows IH]; cbn [app find].
  - cbn [where_email]. now rewrite bool_decide_eq_false_2.
  - destruct (where_email (Some e') r0); [reflexivity | exact IH].
Qed.

Lemma find_UPDATE_other (e' h : list N) (p : option (list N)) (db : database) :
  p <> Some e' ->
  find (where_email (Some e')) (users_rows (UPDATE_conversation_history db h p))
  = find (where_email (Some e')) (users_rows db).
Proof.
  intros Hne. cbn [UPDATE_conversation_history users_rows].
  induction (users_rows db) as [|r rows IH]; [reflexivity |].
  cbn [map find]. destruct (where_email p r) eqn:Hw.
  - destruct p as [e |]; [| discriminate Hw]. cbn in Hw.
    apply bool_decide_eq_true_1 in Hw.
    cbn [where_email users.email].
    rewrite !bool_decide_eq_false_2 by congruence. exact IH.
  - destruct (where_email (Some e') r); [reflexivity | exact IH].
Qed.

(** X10. A text changes what the table holds for one address at most:
    the text itself when it registers, the staged address when it is a
    chat message. The row read back for any other address is the same
    before and after. *)
Theorem other_addresses_are_untouched (urandom text e' : list N) (w : world) :
  e' <> text ->
  user_data w !! "email" <> Some e' ->
  find (where_email (Some e'))
    (users_rows (telegram_users_db (snd (handle_message urandom text w))))
  = find (where_email (Some e')) (users_rows (telegram_users_db w)).
Proof.
  intros Htext Hstaged.
  destruct (handle_message_db_cases urandom text w)
    as [-> | [(_ & Hi) | (_ & old & _ & ->)]].
  - reflexivity.
  - revert Hi. unfold INSERT_INTO_users. destruct (_ || _); [discriminate |].
    intros [= <-]. cbn [users_rows]. apply find_app_other. cbn. congruence.
  - now apply find_UPDATE_other.
Qed.

(* ===================================================================== *)
(** ** Beyond the claims: the conversation *)
(* ===================================================================== *)

(** Every text is answered normally with one reply in a known step and
    with nothing, and no change at all, in any other. *)
Lemma handle_message_outcome (urandom text : list N) (w : world) :
  (step_of w ∈ known_steps /\
   exists reply ud db,
     handle_message urandom text w =
     (Return tt, {| user_data := ud; telegram_users_db := db;
                    sent := sent w ++ [reply] |})) \/
  ((step_of w ∉ known_steps) /\ handle_message urandom text w = (Return tt, w)).
Proof.
  unfold known_steps.
  destruct (decide (step_of w = py "name")) as [Hn | Hn].
  { left. split; [rewrite !elem_of_cons; auto |].
    rewrite (handle_message_name _ _ _ Hn). eauto. }
  destruct (decide (step_of w = py "email")) as [He | He].
  { left. split; [rewrite !elem_of_cons; auto |].
    destruct (is_valid_email unicode_alnum text) eqn:Hv.
    - destruct (INSERT_INTO_users (telegram_users_db w) text (generate_api_token urandom)
                  (default (py "Невідомий") (user_data w !! "name")) [])
        as [[] | db'] eqn:Hi.
      + rewrite (handle_message_refused _ _ _ He Hv Hi). eauto.
      + rewrite (handle_message_registered _ _ _ _ He Hv Hi). eauto.
    - rewrite (handle_message_invalid _ _ _ He Hv). eauto. }
  destruct (decide (step_of w = py "chat")) as [Hc | Hc].
  { left. split; [rewrite !elem_of_cons; auto |].
    rewrite (handle_message_chat _ _ _ Hc). eauto. }
  right. split.
  { rewrite !not_elem_of_cons. repeat split; auto. apply not_elem_of_nil. }
  unfold handle_message, bind, user_data_get.
  change (default (py "name") (user_data w !! "step")) with (step_of w).
  now rewrite !bool_decide_eq_false_2.
Qed.

(** X11. What a call of [handle_message] whose database statements get
    through leaves behind: in one of the steps name, email and chat
    exactly one reply more, after the earlier ones; with any other value
    under ['step'] no reply and no change to the user data or to the
    database. *)
Theorem handle_message_replies_once (urandom text : list N) (w : world) :
  (step_of w ∈ known_steps ->
   exists reply, sent (snd (handle_message urandom text w)) = sent w ++ [reply]) /\
  ((step_of w ∉ known_steps) -> snd (handle_message urandom text w) = w).
Proof.
  destruct (handle_message_outcome urandom text w)
    as [(Hk & reply & ud & db & ->) | (Hk & ->)]; cbn [snd sent].
  - split; [intros _; now exists reply | intros Hn; contradiction].
  - split; [intros Hy; contradiction | reflexivity].
Qed.

(** X12. A text that arrives before any [/start], when the user data
    hold no step, is taken as the name: it is staged, the email prompt
    greets it, and the step becomes [email]. *)
Theorem text_without_start_is_taken_as_name (urandom text : list N) (w : world) :
  user_data w !! "step" = None ->
  handle_message urandom text w =
  (Return tt,
   {| user_data := <["step" := py "email"]> (<["name" := text]> (user_data w));
      telegram_users_db := telegram_users_db w;
      sent := sent w ++ [EMAIL_PROMPT text] |}).
Proof.
  intros Hnone. apply handle_message_name. unfold step_of. now rewrite Hnone.
Qed.

Lemma start_keeps_well_staged (w : world) : well_staged (snd (start w)).
Proof. left. apply start_resets_step. Qed.

Lemma handle_message_keeps_well_staged (urandom text : list N) (w : world) :
  well_staged w -> well_staged (snd (handle_message urandom text w)).
Proof.
  intros [Hn | [(He & Hname) | (Hc & Hname & e & Hst & Hin)]].
  - rewrite (handle_message_name _ _ _ Hn). cbn [snd]. right. left.
    unfold step_of. cbn [user_data]. rewrite lookup_insert_eq. split; [reflexivity |].
    rewrite lookup_insert_ne by discriminate. rewrite lookup_insert_eq. eauto.
  - destruct (is_valid_email unicode_alnum text) eqn:Hv.
    + destruct (INSERT_INTO_users (telegram_users_db w) text (generate_api_token urandom)
                  (default (py "Невідомий") (user_data w !! "name")) [])
        as [[] | db'] eqn:Hi.
      * rewrite (handle_message_refused _ _ _ He Hv Hi). right. left. now split.
      * rewrite (handle_message_registered _ _ _ _ He Hv Hi). cbn [snd].
        right. right. split; [apply step_of_registered |]. cbn [user_data telegram_users_db].
        split; [now rewrite !lookup_insert_ne by discriminate |].
        exists text. split; [apply lookup_insert_eq |].
        revert Hi. unfold INSERT_INTO_users. destruct (_ || _); [discriminate |].
        intros [= <-]. unfold emails. cbn [users_rows]. rewrite map_app.
        apply elem_of_app. right. cbn [map users.email]. apply list_elem_of_singleton.
        reflexivity.
    + rewrite (handle_message_invalid _ _ _ He Hv). right. left. now split.
  - rewrite (handle_message_chat _ _ _ Hc). cbn [snd].
    right. right. split; [exact Hc |]. cbn [user_data telegram_users_db].
    split; [exact Hname |]. exists e. split; [exact Hst |].
    destruct (SELECT_conversation_history _ _); [| exact Hin].
    now rewrite (proj1 (UPDATE_keeps_columns _ _ _)).
Qed.

Lemma run_polling_keeps_well_staged (updates : list update) (w : world) :
  well_staged w -> well_staged (run_polling updates w).
Proof.
  revert w. induction updates as [|u rest IH]; intros w Hw; [exact Hw |].
  cbn [run_polling]. apply IH. destruct u as [| urandom text |]; cbn [dispatch].
  - apply start_keeps_well_staged.
  - now apply handle_message_keeps_well_staged.
  - exact Hw.
Qed.

Lemma fresh_conversation_well_staged (db : database) :
  well_staged (fresh_conversation db).
Proof. left. reflexivity. Qed.

(** X13. In every run of a conversation the process has not seen
    before, the staged data fit the step: the step is always one of the
    three, a name is staged from step [email] on, and in step [chat] the
    staged address has a row in the table. *)
Theorem staged_data_fit_the_step (updates : list update) (db : database) :
  well_staged (run_polling updates (fresh_conversation db)).
Proof.
  apply run_polling_keeps_well_staged, fresh_conversation_well_staged.
Qed.

Lemma SELECT_registered (db : database) (e : list N) :
  e ∈ emails db -> exists old, SELECT_conversation_history db (Some e) = Some old.
Proof.
  unfold emails, SELECT_conversation_history.
  induction (users_rows db) as [|r rows IH]; intros Hin; [inversion Hin |].
  cbn [map] in Hin. cbn [find where_email].
  destruct (bool_decide (users.email r = e)) eqn:Hr; [cbn; eauto |].
  apply elem_of_cons in Hin as [-> | Hin]; [| now apply IH].
  now rewrite bool_decide_eq_true_2 in Hr.
Qed.

(** X14. In such a run no chat message is dropped: whenever the step is
    [chat], the next text is appended to the history of the staged
    address. *)
Theorem chat_message_is_always_stored (updates : list update) (db : database)
    (urandom m : list N) :
  step_of (run_polling updates (fresh_conversation db)) = py "chat" ->
  exists e old,
    user_data (run_polling updates (fresh_conversation db)) !! "email" = Some e /\
    SELECT_conversation_history
      (telegram_users_db (run_polling updates (fresh_conversation db))) (Some e)
      = Some old /\
    SELECT_conversation_history
      (telegram_users_db
         (snd (handle_message urandom m (run_polling updates (fresh_conversation db)))))
      (Some e)
      = Some (new_history old m).
Proof.
  intros Hc.
  pose proof (run_polling_keeps_well_staged updates _ (fresh_conversation_well_staged db))
    as Hw.
  set (w := run_polling updates (fresh_conversation db)) in *.
  destruct Hw as [Hn | [(He & _) | (_ & _ & e & Hst & Hin)]].
  - rewrite Hc in Hn. now apply chat_is_not_name in Hn.
  - rewrite Hc in He. now apply chat_is_not_email in He.
  - destruct (SELECT_registered _ _ Hin) as [old Hold].
    exists e, old. split; [exact Hst |]. split; [exact Hold |].
    rewrite (handle_message_chat _ _ _ Hc). cbn [snd telegram_users_db].
    rewrite Hst, Hold. exact (SELECT_after_UPDATE _ _ _ _ Hold).
Qed.

(** X15. An address can be registered once. After a successful
    registration, [/start], a new name and the same address again end in
    the duplicate-email reply, with the table as the first registration
    left it and the step back at [email], whatever token was drawn the
    second time. *)
Theorem same_address_registers_once (u1 u2 u3 e n : list N) (w : world) :
  step_of w = py "email" ->
  is_valid_email unicode_alnum e = true ->
  e ∉ emails (telegram_users_db w) ->
  generate_api_token u1 ∉ tokens (telegram_users_db w) ->
  exists w1 : world,
    handle_message u1 e w = (Return tt, w1) /\
    step_of w1 = py "chat" /\
    telegram_users_db
      (run_polling [CommandStart; TextMessage u2 n; TextMessage u3 e] w1)
      = telegram_users_db w1 /\
    step_of (run_polling [CommandStart; TextMessage u2 n; TextMessage u3 e] w1)
      = py "email" /\
    last (sent (run_polling [CommandStart; TextMessage u2 n; TextMessage u3 e] w1))
      = Some DUPLICATE_REPLY.
Proof.
  intros Hs Hv He Ht.
  pose proof (INSERT_fresh _ e _ (default (py "Невідомий") (user_data w !! "name")) []
                He Ht) as Hi.
  pose proof (handle_message_registered _ _ _ _ Hs Hv Hi) as H1.
  eexists. split; [exact H1 |]. split; [apply step_of_registered |].
  cbn [run_polling dispatch].
  rewrite (proj1 (start_resets_step _)). cbn [snd].
  rewrite (handle_message_name u2 n)
    by (unfold step_of; cbn [user_data]; now rewrite lookup_insert_eq).
  cbn [snd user_data telegram_users_db sent].
  rewrite handle_message_refused.
  - cbn [snd telegram_users_db sent]. split; [reflexivity |]. split.
    + unfold step_of. cbn [user_data]. now rewrite lookup_insert_eq.
    + apply last_snoc.
  - unfold step_of. cbn [user_data]. now rewrite lookup_insert_eq.
  - exact Hv.
  - apply INSERT_duplicate_email. unfold emails. cbn [telegram_users_db users_rows].
    rewrite map_app. apply elem_of_app. right. apply list_elem_of_singleton. reflexivity.
Qed.

Lemma new_history_twice (h a b : list N) :
  new_history (new_history h a) b
  = new_history h (a ++ QUOTE :: py ", " ++ QUOTE :: b).
Proof.
  destruct h as [|c h]; cbn [new_history app].
  - f_equal. repeat (rewrite <- app_assoc || rewrite <- app_comm_cons). reflexivity.
  - f_equal. repeat (rewrite <- app_assoc || rewrite <- app_comm_cons). reflexivity.
Qed.

Lemma UPDATE_UPDATE (db : database) (h1 h2 : list N) (p : option (list N)) :
  UPDATE_conversation_history (UPDATE_conversation_history db h1 p) h2 p
  = UPDATE_conversation_history db h2 p.
Proof.
  unfold UPDATE_conversation_history. cbn [users_rows sqlite_sequence]. f_equal.
  induction (users_rows db) as [|r rows IH]; [reflexivity |].
  cbn [map]. rewrite IH. f_equal.
  destruct (where_email p r) eqn:Hw; [| now rewrite Hw].
  destruct p as [e |]; [| discriminate Hw]. cbn in Hw |- *. now rewrite Hw.
Qed.

Lemma SELECT_after_UPDATE_param (db : database) (old h : list N) (p : option (list N)) :
  SELECT_conversation_history db p = Some old ->
  SELECT_conversation_history (UPDATE_conversation_history db h p) p = Some h.
Proof.
  destruct p as [e |].
  - apply SELECT_after_UPDATE.
  - intros H. rewrite SELECT_unregistered in H; [discriminate H | discriminate].
Qed.

(** X16. The history does not keep messages apart: the quotation marks
    around a message are not escaped, so in step [chat] the two messages
    [a] and [b] leave exactly the database that the one message made of
    [a], a quotation mark, a comma, a space, a quotation mark and [b]
    leaves. *)
Theorem two_messages_are_stored_like_one (u1 u2 u3 a b : list N) (w : world) :
  step_of w = py "chat" ->
  telegram_users_db (run_polling [TextMessage u1 a; TextMessage u2 b] w)
  = telegram_users_db
      (run_polling [TextMessage u3 (a ++ QUOTE :: py ", " ++ QUOTE :: b)] w).
Proof.
  intros Hc. cbn [run_polling dispatch].
  rewrite (handle_message_chat u1 a w Hc). cbn [snd].
  rewrite (handle_message_chat u3 _ w Hc). cbn [snd telegram_users_db].
  rewrite handle_message_chat by exact Hc.
  cbn [snd telegram_users_db user_data].
  destruct (SELECT_conversation_history (telegram_users_db w) (user_data w !! "email"))
    as [old |] eqn:Hsel.
  - rewrite (SELECT_after_UPDATE_param _ _ _ _ Hsel).
    now rewrite UPDATE_UPDATE, new_history_twice.
  - now rewrite Hsel.
Qed.

Lemma dispatch_sent (u : update) (w : world) :
  exists out, sent (snd (dispatch u w)) = sent w ++ out /\ (length out <= 1)%nat.
Proof.
  destruct u as [| urandom text |]; cbn [dispatch].
  - exists [NAME_PROMPT]. split; [reflexivity | cbn; lia].
  - destruct (handle_message_outcome urandom text w)
      as [(_ & reply & ud & db & ->) | (_ & ->)].
    + exists [reply]. split; [reflexivity | cbn; lia].
    + exists []. split; [now rewrite app_nil_r | cbn; lia].
  - exists []. split; [now rewrite app_nil_r | cbn; lia].
Qed.

(** X17. Replies are only ever added: along every run the replies sent
    before stay, in order, at the front of the list, and each update
    adds one reply at most. *)
Theorem replies_are_only_appended (updates : list update) (w : world) :
  sent w `prefix_of` sent (run_polling updates w) /\
  (length (sent (run_polling updates w)) <= length (sent w) + length updates)%nat.
Proof.
  revert w. induction updates as [|u rest IH]; intros w; cbn [run_polling].
  - split; [reflexivity | lia].
  - destruct (IH (snd (dispatch u w))) as [Hpre Hlen].
    destruct (dispatch_sent u w) as (out & Hout & Hone).
    rewrite Hout in Hpre, Hlen. split.
    + transitivity (sent w ++ out); [apply prefix_app_r; reflexivity | exact Hpre].
    + rewrite length_app in Hlen. cbn [length]. lia.
Qed.

End Bot.

(* ===================================================================== *)
(** ** Worked instances *)
(* ===================================================================== *)

Lemma bob_matches_grammar : email_grammar ascii_table (py "bob@example.org").
Proof.
  exists (py "bob"), (py "example"), (py "org").
  repeat split; try (intros H; vm_compute in H; discriminate H); vm_compute; reflexivity.
Defined.

Lemma alice_matches_grammar : email_grammar ascii_table (py "alice@example.org").
Proof.
  exists (py "alice"), (py "example"), (py "org").
  repeat split; try (intros H; vm_compute in H; discriminate H); vm_compute; reflexivity.
Defined.

(** Bob registers in a table that holds Alice. *)
Lemma registration_creates_one_record_witness :
  step_of (at_email alice_db) = py "email" /\
  email_grammar ascii_table (py "bob@example.org") /\
  (py "bob@example.org" ∉ emails alice_db) /\
  (generate_api_token sample_urandom ∉ tokens alice_db) /\
  exists (r : users.row) (w' : world),
    handle_message ascii_table sample_urandom (py "bob@example.org") (at_email alice_db)
      = (Return tt, w') /\
    users_rows (telegram_users_db w') = users_rows alice_db ++ [r] /\
    users.email r = py "bob@example.org" /\
    users.api_token r = generate_api_token sample_urandom /\
    users.conversation_history r = [] /\
    step_of w' = py "chat" /\
    user_data w' !! "email" = Some (py "bob@example.org") /\
    sent w' = [] ++ [TOKEN_REPLY (generate_api_token sample_urandom)] /\
    exists pre, TOKEN_REPLY (generate_api_token sample_urandom)
                = pre ++ generate_api_token sample_urandom.
Proof.
  assert (H1 : step_of (at_email alice_db) = py "email") by (vm_compute; reflexivity).
  assert (H3 : py "bob@example.org" ∉ emails alice_db) by by_evaluation.
  assert (H4 : generate_api_token sample_urandom ∉ tokens alice_db) by by_evaluation.
  split; [exact H1 |]. split; [exact bob_matches_grammar |].
  split; [exact H3 |]. split; [exact H4 |].
  exact (registration_creates_one_record ascii_table sample_urandom (py "bob@example.org")
           (at_email alice_db) H1 bob_matches_grammar H3 H4).
Defined.

(** C1 as first stated fails: Bob's address is of the grammar and new
    to the table, the step is [email], yet the token drawn for him is
    Carol's, so no row is created, the step stays [email] and the reply
    is the duplicate-email reply without any token. *)
Lemma colliding_token_creates_no_record :
  step_of (at_email carol_db) = py "email" /\
  email_grammar ascii_table (py "bob@example.org") /\
  (py "bob@example.org" ∉ emails carol_db) /\
  handle_message ascii_table sample_urandom (py "bob@example.org") (at_email carol_db) =
    (Return tt,
     {| user_data := user_data (at_email carol_db);
        telegram_users_db := carol_db;
        sent := [DUPLICATE_REPLY] |}) /\
  ~ (exists r : users.row,
       users_rows
         (telegram_users_db
            (snd (handle_message ascii_table sample_urandom (py "bob@example.org")
                    (at_email carol_db))))
       = users_rows carol_db ++ [r]) /\
  step_of (snd (handle_message ascii_table sample_urandom (py "bob@example.org")
                  (at_email carol_db))) <> py "chat".
Proof.
  assert (Hrun : handle_message ascii_table sample_urandom (py "bob@example.org")
                   (at_email carol_db) =
                 (Return tt,
                  {| user_data := user_data (at_email carol_db);
                     telegram_users_db := carol_db;
                     sent := [DUPLICATE_REPLY] |})).
  { apply (handle_message_refused ascii_table).
    - vm_compute. reflexivity.
    - vm_compute. reflexivity.
    - apply INSERT_duplicate_token. by_evaluation. }
  split; [vm_compute; reflexivity |]. split; [exact bob_matches_grammar |].
  split; [by_evaluation |]. split; [exact Hrun |].
  rewrite Hrun. cbn [snd telegram_users_db]. split.
  - intros [r Hr]. apply (f_equal length) in Hr.
    rewrite length_app in Hr. cbn [length] in Hr. lia.
  - intros H. vm_compute in H. discriminate H.
Qed.

(** Alice's address is submitted a second time. *)
Lemma duplicate_email_is_refused_witness :
  step_of (at_email alice_db) = py "email" /\
  email_grammar ascii_table (py "alice@example.org") /\
  (py "alice@example.org" ∈ emails alice_db) /\
  handle_message ascii_table sample_urandom (py "alice@example.org") (at_email alice_db) =
    (Return tt,
     {| user_data := user_data (at_email alice_db);
        telegram_users_db := alice_db;
        sent := [] ++ [DUPLICATE_REPLY] |}) /\
  step_of (snd (handle_message ascii_table sample_urandom (py "alice@example.org")
                  (at_email alice_db))) = py "email" /\
  DUPLICATE_REPLY <> INVALID_REPLY.
Proof.
  assert (H1 : step_of (at_email alice_db) = py "email") by (vm_compute; reflexivity).
  assert (H3 : py "alice@example.org" ∈ emails alice_db) by by_evaluation.
  split; [exact H1 |]. split; [exact alice_matches_grammar |]. split; [exact H3 |].
  exact (duplicate_email_is_refused ascii_table sample_urandom (py "alice@example.org")
           (at_email alice_db) H1 alice_matches_grammar H3).
Defined.

(** Alice, registered with an empty history, sends "a" and then "b". *)
Lemma chat_messages_are_appended_in_order_witness :
  step_of (at_chat (py "alice@example.org") alice_db) = py "chat" /\
  user_data (at_chat (py "alice@example.org") alice_db) !! "email"
    = Some (py "alice@example.org") /\
  SELECT_conversation_history alice_db (Some (py "alice@example.org")) = Some [] /\
  exists w1 w2 : world,
    handle_message ascii_table sample_urandom (py "a")
      (at_chat (py "alice@example.org") alice_db) = (Return tt, w1) /\
    handle_message ascii_table sample_urandom (py "b") w1 = (Return tt, w2) /\
    SELECT_conversation_history (telegram_users_db w1) (Some (py "alice@example.org"))
      = Some (new_history [] (py "a")) /\
    SELECT_conversation_history (telegram_users_db w2) (Some (py "alice@example.org"))
      = Some (new_history (new_history [] (py "a")) (py "b")) /\
    [] `prefix_of` new_history [] (py "a") /\
    new_history [] (py "a") `prefix_of` new_history (new_history [] (py "a")) (py "b") /\
    (exists sep, new_history (new_history [] (py "a")) (py "b")
                 = [] ++ sep ++ (QUOTE :: py "a" ++ [QUOTE]) ++ py ", "
                      ++ (QUOTE :: py "b" ++ [QUOTE])) /\
    (@nil N = [] -> new_history (new_history [] (py "a")) (py "b")
                    = (QUOTE :: py "a" ++ [QUOTE]) ++ py ", " ++ (QUOTE :: py "b" ++ [QUOTE])).
Proof.
  assert (H1 : step_of (at_chat (py "alice@example.org") alice_db) = py "chat")
    by (vm_compute; reflexivity).
  assert (H2 : user_data (at_chat (py "alice@example.org") alice_db) !! "email"
               = Some (py "alice@example.org")) by (vm_compute; reflexivity).
  assert (H3 : SELECT_conversation_history alice_db (Some (py "alice@example.org")) = Some [])
    by (vm_compute; reflexivity).
  split; [exact H1 |]. split; [exact H2 |]. split; [exact H3 |].
  exact (chat_messages_are_appended_in_order ascii_table sample_urandom sample_urandom
           (py "a") (py "b") (py "alice@example.org") []
           (at_chat (py "alice@example.org") alice_db) H1 H2 H3).
Defined.

(** A conversation in step [chat] whose staged address has no row. *)
Lemma chat_without_record_is_silent_witness :
  step_of (at_chat (py "ghost@example.org") alice_db) = py "chat" /\
  (forall e, user_data (at_chat (py "ghost@example.org") alice_db) !! "email" = Some e ->
             e ∉ emails alice_db) /\
  handle_message ascii_table sample_urandom (py "hello")
    (at_chat (py "ghost@example.org") alice_db) =
    (Return tt,
     {| user_data := user_data (at_chat (py "ghost@example.org") alice_db);
        telegram_users_db := alice_db;
        sent := [] ++ [SAVED_REPLY] |}).
Proof.
  assert (H1 : step_of (at_chat (py "ghost@example.org") alice_db) = py "chat")
    by (vm_compute; reflexivity).
  assert (H2 : forall e,
             user_data (at_chat (py "ghost@example.org") alice_db) !! "email" = Some e ->
             e ∉ emails alice_db).
  { intros e He. vm_compute in He. injection He as <-. by_evaluation. }
  split; [exact H1 |]. split; [exact H2 |].
  exact (chat_without_record_is_silent ascii_table sample_urandom (py "hello")
           (at_chat (py "ghost@example.org") alice_db) H1 H2).
Defined.

(** Bob's row, read back from the table that held Alice. *)
Lemma registered_record_reads_back_witness :
  step_of (at_email alice_db) = py "email" /\
  email_grammar ascii_table (py "bob@example.org") /\
  (py "bob@example.org" ∉ emails alice_db) /\
  (generate_api_token sample_urandom ∉ tokens alice_db) /\
  exists (r : users.row) (w' : world),
    handle_message ascii_table sample_urandom (py "bob@example.org") (at_email alice_db)
      = (Return tt, w') /\
    find (where_email (Some (py "bob@example.org"))) (users_rows (telegram_users_db w'))
      = Some r /\
    users.email r = py "bob@example.org" /\
    users.api_token r = generate_api_token sample_urandom /\
    users.name r = default (py "Невідомий") (user_data (at_email alice_db) !! "name") /\
    users.conversation_history r = [] /\
    SELECT_conversation_history (telegram_users_db w') (Some (py "bob@example.org"))
      = Some [].
Proof.
  assert (H1 : step_of (at_email alice_db) = py "email") by (vm_compute; reflexivity).
  assert (H3 : py "bob@example.org" ∉ emails alice_db) by by_evaluation.
  assert (H4 : generate_api_token sample_urandom ∉ tokens alice_db) by by_evaluation.
  split; [exact H1 |]. split; [exact bob_matches_grammar |].
  split; [exact H3 |]. split; [exact H4 |].
  exact (registered_record_reads_back ascii_table sample_urandom (py "bob@example.org")
           (at_email alice_db) H1 bob_matches_grammar H3 H4).
Defined.

(** Bob's address is new, but the token drawn for him is Carol's. *)
Lemma token_collision_is_reported_as_duplicate_witness :
  step_of (at_email carol_db) = py "email" /\
  email_grammar ascii_table (py "bob@example.org") /\
  (py "bob@example.org" ∉ emails carol_db) /\
  (generate_api_token sample_urandom ∈ tokens carol_db) /\
  INSERT_INTO_users carol_db (py "bob@example.org") (generate_api_token sample_urandom)
    (default (py "Невідомий") (user_data (at_email carol_db) !! "name")) []
    = inl IntegrityError /\
  handle_message ascii_table sample_urandom (py "bob@example.org") (at_email carol_db) =
    (Return tt,
     {| user_data := user_data (at_email carol_db);
        telegram_users_db := carol_db;
        sent := [] ++ [DUPLICATE_REPLY] |}) /\
  step_of (snd (handle_message ascii_table sample_urandom (py "bob@example.org")
                  (at_email carol_db))) = py "email".
Proof.
  assert (H1 : step_of (at_email carol_db) = py "email") by (vm_compute; reflexivity).
  assert (H3 : py "bob@example.org" ∉ emails carol_db) by by_evaluation.
  assert (H4 : generate_api_token sample_urandom ∈ tokens carol_db) by by_evaluation.
  split; [exact H1 |]. split; [exact bob_matches_grammar |].
  split; [exact H3 |]. split; [exact H4 |].
  exact (token_collision_is_reported_as_duplicate ascii_table sample_urandom
           (py "bob@example.org") (at_email carol_db) H1 bob_matches_grammar H3 H4).
Defined.

Lemma valid_address_has_one_at_witness :
  is_valid_email ascii_table (py "bob@example.org") = true /\
  count_occ N.eq_dec (py "bob@example.org") AT = 1%nat.
Proof.
  assert (H : is_valid_email ascii_table (py "bob@example.org") = true)
    by (vm_compute; reflexivity).
  split; [exact H |].
  exact (valid_address_has_one_at ascii_table (py "bob@example.org") H).
Defined.

Lemma valid_address_alphabet_witness :
  is_valid_email ascii_table (py "bob@example.org") = true /\
  forallb (address_char ascii_table) (py "bob@example.org") = true.
Proof.
  assert (H : is_valid_email ascii_table (py "bob@example.org") = true)
    by (vm_compute; reflexivity).
  split; [exact H |].
  exact (valid_address_alphabet ascii_table (py "bob@example.org") H).
Defined.

Lemma short_text_is_rejected_witness :
  (length (py "a@b.") < 5)%nat /\ is_valid_email ascii_table (py "a@b.") = false.
Proof.
  assert (H : (length (py "a@b.") < 5)%nat) by (vm_compute; lia).
  split; [exact H |].
  exact (short_text_is_rejected ascii_table (py "a@b.") H).
Defined.

Lemma unique_columns_are_kept_witness :
  unique_columns alice_db /\
  unique_columns
    (telegram_users_db
       (run_polling ascii_table
          [TextMessage sample_urandom (py "bob@example.org");
           TextMessage sample_urandom (py "hello")]
          (at_email alice_db))).
Proof.
  assert (H : unique_columns alice_db)
    by (split; apply (bool_decide_unpack _); vm_compute; exact I).
  split; [exact H |].
  exact (unique_columns_are_kept ascii_table _ (at_email alice_db) H).
Defined.

Lemma rowids_stay_unique_witness :
  NoDup (rowids alice_db) /\
  N.max (sqlite_sequence alice_db) (max_rowid (users_rows alice_db)) < MAX_ROWID /\
  NoDup
    (rowids
       (telegram_users_db
          (snd (handle_message ascii_table sample_urandom (py "bob@example.org")
                  (at_email alice_db))))) /\
  forall rowid,
    rowid ∈ rowids
              (telegram_users_db
                 (snd (handle_message ascii_table sample_urandom (py "bob@example.org")
                         (at_email alice_db)))) ->
    rowid ∈ rowids alice_db \/
    ((forall old, old ∈ rowids alice_db -> old < rowid) /\
     sqlite_sequence alice_db < rowid /\
     rowid <= MAX_ROWID).
Proof.
  assert (H1 : NoDup (rowids alice_db)) by by_evaluation.
  assert (H2 : N.max (sqlite_sequence alice_db) (max_rowid (users_rows alice_db))
               < MAX_ROWID) by (vm_compute; reflexivity).
  split; [exact H1 |]. split; [exact H2 |].
  exact (rowids_stay_unique ascii_table sample_urandom (py "bob@example.org")
           (at_email alice_db) H1 H2).
Defined.

Lemma store_is_append_only_witness :
  unique_columns alice_db /\
  extends alice_db
    (telegram_users_db
       (run_polling ascii_table
          [TextMessage sample_urandom (py "hello");
           CommandStart;
           TextMessage sample_urandom (py "Bob");
           TextMessage sample_urandom (py "bob@example.org")]
          (at_chat (py "alice@example.org") alice_db))).
Proof.
  assert (H : unique_columns alice_db)
    by (split; apply (bool_decide_unpack _); vm_compute; exact I).
  split; [exact H |].
  exact (store_is_append_only ascii_table _ (at_chat (py "alice@example.org") alice_db) H).
Defined.

Lemma other_addresses_are_untouched_witness :
  py "alice@example.org" <> py "bob@example.org" /\
  user_data (at_email alice_db) !! "email" <> Some (py "alice@example.org") /\
  find (where_email (Some (py "alice@example.org")))
    (users_rows
       (telegram_users_db
          (snd (handle_message ascii_table sample_urandom (py "bob@example.org")
                  (at_email alice_db)))))
  = find (where_email (Some (py "alice@example.org"))) (users_rows alice_db).
Proof.
  assert (H1 : py "alice@example.org" <> py "bob@example.org")
    by (intros H; vm_compute in H; discriminate H).
  assert (H2 : user_data (at_email alice_db) !! "email" <> Some (py "alice@example.org"))
    by (intros H; vm_compute in H; discriminate H).
  split; [exact H1 |]. split; [exact H2 |].
  exact (other_addresses_are_untouched ascii_table sample_urandom (py "bob@example.org")
           (py "alice@example.org") (at_email alice_db) H1 H2).
Defined.

Lemma text_without_start_is_taken_as_name_witness :
  user_data (fresh_conversation alice_db) !! "step" = None /\
  handle_message ascii_table sample_urandom (py "Bob") (fresh_conversation alice_db) =
  (Return tt,
   {| user_data :=
        <["step" := py "email"]>
          (<["name" := py "Bob"]> (user_data (fresh_conversation alice_db)));
      telegram_users_db := telegram_users_db (fresh_conversation alice_db);
      sent := sent (fresh_conversation alice_db) ++ [EMAIL_PROMPT (py "Bob")] |}).
Proof.
  assert (H : user_data (fresh_conversation alice_db) !! "step" = None) by reflexivity.
  split; [exact H |].
  exact (text_without_start_is_taken_as_name ascii_table sample_urandom (py "Bob")
           (fresh_conversation alice_db) H).
Defined.

Lemma chat_message_is_always_stored_witness :
  step_of
    (run_polling ascii_table
       [CommandStart; TextMessage sample_urandom (py "Bob");
        TextMessage sample_urandom (py "bob@example.org")]
       (fresh_conversation alice_db)) = py "chat" /\
  exists e old,
    user_data
      (run_polling ascii_table
         [CommandStart; TextMessage sample_urandom (py "Bob");
          TextMessage sample_urandom (py "bob@example.org")]
         (fresh_conversation alice_db)) !! "email" = Some e /\
    SELECT_conversation_history
      (telegram_users_db
         (run_polling ascii_table
            [CommandStart; TextMessage sample_urandom (py "Bob");
             TextMessage sample_urandom (py "bob@example.org")]
            (fresh_conversation alice_db))) (Some e)
      = Some old /\
    SELECT_conversation_history
      (telegram_users_db
         (snd (handle_message ascii_table sample_urandom (py "hello")
                 (run_polling ascii_table
                    [CommandStart; TextMessage sample_urandom (py "Bob");
                     TextMessage sample_urandom (py "bob@example.org")]
                    (fresh_conversation alice_db)))))
      (Some e)
      = Some (new_history old (py "hello")).
Proof.
  assert (H : step_of
                (run_polling ascii_table
                   [CommandStart; TextMessage sample_urandom (py "Bob");
                    TextMessage sample_urandom (py "bob@example.org")]
                   (fresh_conversation alice_db)) = py "chat")
    by (vm_compute; reflexivity).
  split; [exact H |].
  exact (chat_message_is_always_stored ascii_table _ alice_db sample_urandom (py "hello") H).
Defined.

Lemma same_address_registers_once_witness :
  step_of (at_email alice_db) = py "email" /\
  is_valid_email ascii_table (py "bob@example.org") = true /\
  (py "bob@example.org" ∉ emails alice_db) /\
  (generate_api_token sample_urandom ∉ tokens alice_db) /\
  exists w1 : world,
    handle_message ascii_table sample_urandom (py "bob@example.org") (at_email alice_db)
      = (Return tt, w1) /\
    step_of w1 = py "chat" /\
    telegram_users_db
      (run_polling ascii_table
         [CommandStart; TextMessage (repeat 7 16) (py "Robert");
          TextMessage (repeat 7 16) (py "bob@example.org")] w1)
      = telegram_users_db w1 /\
    step_of
      (run_polling ascii_table
         [CommandStart; TextMessage (repeat 7 16) (py "Robert");
          TextMessage (repeat 7 16) (py "bob@example.org")] w1)
      = py "email" /\
    last
      (sent
         (run_polling ascii_table
            [CommandStart; TextMessage (repeat 7 16) (py "Robert");
             TextMessage (repeat 7 16) (py "bob@example.org")] w1))
      = Some DUPLICATE_REPLY.
Proof.
  assert (H1 : step_of (at_email alice_db) = py "email") by (vm_compute; reflexivity).
  assert (H2 : is_valid_email ascii_table (py "bob@example.org") = true)
    by (vm_compute; reflexivity).
  assert (H3 : py "bob@example.org" ∉ emails alice_db) by by_evaluation.
  assert (H4 : generate_api_token sample_urandom ∉ tokens alice_db) by by_evaluation.
  split; [exact H1 |]. split; [exact H2 |]. split; [exact H3 |]. split; [exact H4 |].
  exact (same_address_registers_once ascii_table sample_urandom (repeat 7 16) (repeat 7 16)
           (py "bob@example.org") (py "Robert") (at_email alice_db) H1 H2 H3 H4).
Defined.

Lemma two_messages_are_stored_like_one_witness :
  step_of (at_chat (py "alice@example.org") alice_db) = py "chat" /\
  telegram_users_db
    (run_polling ascii_table
       [TextMessage sample_urandom (py "a"); TextMessage sample_urandom (py "b")]
       (at_chat (py "alice@example.org") alice_db))
  = telegram_users_db
      (run_polling ascii_table
         [TextMessage sample_urandom (py "a" ++ QUOTE :: py ", " ++ QUOTE :: py "b")]
         (at_chat (py "alice@example.org") alice_db)).
Proof.
  assert (H : step_of (at_chat (py "alice@example.org") alice_db) = py "chat")
    by (vm_compute; reflexivity).
  split; [exact H |].
  exact (two_messages_are_stored_like_one ascii_table sample_urandom sample_urandom
           sample_urandom (py "a") (py "b") (at_chat (py "alice@example.org") alice_db) H).
Defined.
